(** * Model-aware tool translation for Ollama backends: a shallow embedding

    The development follows the TypeScript sources of the translation layer:

    - [ModelCapabilities.ts]       : the capability table and its lookup;
    - [OllamaToolTranslator.ts]    : conversion of caller tools to a dialect;
    - [OllamaResponseTranslator.ts]: validation of backend tool calls;
    - [ollamaClient.ts]            : retry loop and streaming frame reader.

    Conventions.  A JavaScript string is modelled by [string]; each
    character stands for one UTF-16 code unit below 256, so the strings of
    the model are the Latin-1 strings of the program.  On these,
    [toLowerCase], [trim] and the character classes of the regular
    expressions are modelled exactly.  Optional properties ([x?: T]) are
    [option]s, [None] standing for [undefined].  Code that can throw returns
    a [result]; console output and thrown errors are returned as values.  The
    number of retries, which the program does not require to be whole, is a
    rational or one of the values that are not finite. *)

From stdpp Require Import base strings list gmap.
From Stdlib Require Import ZArith DecimalString QArith Qround.

Close Scope Q_scope.

Set Warnings "-register-all".
Import Ascii.AsciiSyntax.
Delimit Scope char_scope with char.

(** ** JavaScript strings *)

Module JsString.

Definition code (c : Ascii.ascii) : N := Ascii.N_of_ascii c.

Definition in_range (lo hi : N) (c : Ascii.ascii) : bool :=
  ((lo <=? code c) && (code c <=? hi))%N.

(** [\d] of a JavaScript regular expression: the ten ASCII digits. *)
Definition is_digit (c : Ascii.ascii) : bool := in_range 48 57 c.

(** [\s], and the characters removed by [trim]: TAB, LF, VT, FF, CR,
    SPACE and NO-BREAK SPACE are those below 256. *)
Definition is_space (c : Ascii.ascii) : bool :=
  in_range 9 13 c || (code c =? 32)%N || (code c =? 160)%N.

(** [toLowerCase] on one code unit: A-Z, and the Latin-1 capitals
    U+00C0-U+00DE except the multiplication sign U+00D7. *)
Definition lower_char (c : Ascii.ascii) : Ascii.ascii :=
  if in_range 65 90 c || (in_range 192 222 c && negb (code c =? 215)%N)
  then Ascii.ascii_of_N (code c + 32)
  else c.

Fixpoint map_chars (f : Ascii.ascii -> Ascii.ascii) (s : string) : string :=
  match s with
  | EmptyString => EmptyString
  | String c s' => String (f c) (map_chars f s')
  end.

Fixpoint filter_chars (keep : Ascii.ascii -> bool) (s : string) : string :=
  match s with
  | EmptyString => EmptyString
  | String c s' =>
      if keep c then String c (filter_chars keep s') else filter_chars keep s'
  end.

(** [s.toLowerCase()] on a Latin-1 string, one code unit at a time.  On
    other strings the program can return more code units than it was given
    (U+0130 becomes two): no statement below rests on the two lengths being
    equal. *)
Definition toLowerCase (s : string) : string := map_chars lower_char s.

(** [s.includes(sub)] *)
Fixpoint includes (s sub : string) : bool :=
  if String.prefix sub s then true
  else match s with
       | EmptyString => false
       | String _ s' => includes s' sub
       end.

(** [s.replace(/p$/, '')] for a pattern [p] that cannot match the empty
    string: the leftmost position from which the rest of the string
    matches [p] up to the end is where the string is cut. *)
Fixpoint strip_at_end (p : string -> bool) (s : string) : string :=
  if p s then EmptyString
  else match s with
       | EmptyString => EmptyString
       | String c s' => String c (strip_at_end p s')
       end.

(** Removes leading characters satisfying [p]. *)
Fixpoint drop_while (p : Ascii.ascii -> bool) (s : string) : string :=
  match s with
  | EmptyString => EmptyString
  | String c s' => if p c then drop_while p s' else s
  end.

Definition all_chars (p : Ascii.ascii -> bool) (s : string) : bool :=
  match drop_while p s with EmptyString => true | _ => false end.

(** Removes trailing characters satisfying [p]. *)
Fixpoint drop_while_end (p : Ascii.ascii -> bool) (s : string) : string :=
  match s with
  | EmptyString => EmptyString
  | String c s' =>
      if p c && all_chars p s' then EmptyString
      else String c (drop_while_end p s')
  end.

Definition trim (s : string) : string :=
  drop_while_end is_space (drop_while is_space s).

(** [s.substring(0, n)] *)
Fixpoint take (n : nat) (s : string) : string :=
  match n, s with
  | S n', String c s' => String c (take n' s')
  | _, _ => EmptyString
  end.

(** Decimal rendering of a number inside a template literal. *)
Definition of_nat (n : nat) : string :=
  NilEmpty.string_of_uint (Nat.to_uint n).

End JsString.

(** ** ModelCapabilities.ts *)

Inductive ToolFormat := openai | hermes | custom.
Inductive PromptStyle := standard | agentic | hermes_style.
Inductive MultiTurnSupport := excellent | good | poor.

Record ModelConfig := {
  recommendedContextSize : option Z;
  requiresExplicitToolChoice : option bool;
  specialTokens : option (list string)
}.

Record ModelToolCapabilities := {
  supportsTools : bool;
  toolFormat : ToolFormat;
  maxTools : nat;
  supportsParallel : bool;
  supportsStreaming : bool;
  customParser : option string;
  promptStyle : PromptStyle;
  multiTurnSupport : MultiTurnSupport;
  version : option string;
  config : option ModelConfig
}.

#[global] Instance ToolFormat_eq_dec : EqDecision ToolFormat.
Proof. solve_decision. Defined.
#[global] Instance PromptStyle_eq_dec : EqDecision PromptStyle.
Proof. solve_decision. Defined.
#[global] Instance MultiTurnSupport_eq_dec : EqDecision MultiTurnSupport.
Proof. solve_decision. Defined.
#[global] Instance ModelConfig_eq_dec : EqDecision ModelConfig.
Proof. solve_decision. Defined.
#[global] Instance ModelToolCapabilities_eq_dec : EqDecision ModelToolCapabilities.
Proof. solve_decision. Defined.

Module ModelCapabilities.

Definition qwen_coder (max : nat) (parallel : bool) (cfg : option ModelConfig)
  : ModelToolCapabilities :=
  {| supportsTools := true; toolFormat := hermes; maxTools := max;
     supportsParallel := parallel; supportsStreaming := true;
     customParser := Some "qwen3coder"; promptStyle := hermes_style;
     multiTurnSupport := good; version := None; config := cfg |}.

Definition openai_model (max : nat) (parallel streaming : bool)
    (style : PromptStyle) (turns : MultiTurnSupport)
    (ver : option string) (cfg : option ModelConfig) : ModelToolCapabilities :=
  {| supportsTools := true; toolFormat := openai; maxTools := max;
     supportsParallel := parallel; supportsStreaming := streaming;
     customParser := None; promptStyle := style;
     multiTurnSupport := turns; version := ver; config := cfg |}.

Definition explicit_choice (b : bool) : option ModelConfig :=
  Some {| recommendedContextSize := None;
          requiresExplicitToolChoice := Some b;
          specialTokens := None |}.

(** The table, in the order of the object literal (the order in which
    [Object.entries] enumerates it). *)
Definition MODEL_CAPABILITIES : list (string * ModelToolCapabilities) :=
  [ ("qwen2.5-coder:32b",
      qwen_coder 64 true
        (Some {| recommendedContextSize := Some 32768%Z;
                 requiresExplicitToolChoice := Some false;
                 specialTokens := Some ["<tool_call>"; "</tool_call>"] |}));
    ("qwen2.5-coder:14b",
      qwen_coder 32 true
        (Some {| recommendedContextSize := Some 32768%Z;
                 requiresExplicitToolChoice := Some false;
                 specialTokens := None |}));
    ("qwen2.5-coder:7b", qwen_coder 16 false None);
    ("mistral:latest",
      openai_model 128 true false standard excellent None (explicit_choice true));
    ("mistral-nemo", openai_model 64 true false standard excellent None None);
    ("codestral", openai_model 32 true false standard good None None);
    ("deepseek-chat",
      openai_model 128 true false standard poor None (explicit_choice true));
    ("deepseek-reasoner",
      openai_model 64 true false standard poor (Some "R1-0528") None);
    ("kimi-k2",
      openai_model 64 true true agentic excellent None
        (Some {| recommendedContextSize := Some 128000%Z;
                 requiresExplicitToolChoice := Some false;
                 specialTokens := None |}));
    ("llama3.1:latest", openai_model 32 true true standard good None None);
    ("llama3.2:latest", openai_model 16 false true standard good None None);
    ("firefunction-v2", openai_model 64 true false standard good None None);
    ("command-r-plus", openai_model 32 true false standard good None None) ].

Definition DEFAULT_MODEL_CAPABILITIES : ModelToolCapabilities :=
  {| supportsTools := false; toolFormat := openai; maxTools := 0;
     supportsParallel := false; supportsStreaming := false;
     customParser := None; promptStyle := standard;
     multiTurnSupport := poor; version := None; config := None |}.

(** The table is an object literal, so an index expression
    [MODEL_CAPABILITIES[key]] that finds no own property goes on to the
    members every object inherits from [Object.prototype].  Each of them
    is a function or an object, hence truthy. *)
Definition Object_prototype_members : list string :=
  [ "constructor"; "__defineGetter__"; "__defineSetter__"; "hasOwnProperty";
    "__lookupGetter__"; "__lookupSetter__"; "isPrototypeOf";
    "propertyIsEnumerable"; "toString"; "valueOf"; "__proto__";
    "toLocaleString" ].

(** What an index expression on the table evaluates to. *)
Inductive TableValue :=
| Entry (c : ModelToolCapabilities)
| Inherited (member : string).

Fixpoint own_property (key : string) (table : list (string * ModelToolCapabilities))
  : option ModelToolCapabilities :=
  match table with
  | [] => None
  | (k, c) :: rest => if String.eqb k key then Some c else own_property key rest
  end.

Definition inherited (key : string) : bool :=
  existsb (String.eqb key) Object_prototype_members.

(** [MODEL_CAPABILITIES[key]]; [None] is [undefined]. *)
Definition index (key : string) : option TableValue :=
  match own_property key MODEL_CAPABILITIES with
  | Some c => Some (Entry c)
  | None => if inherited key then Some (Inherited key) else None
  end.

(** [/-\d+[bm]$/] matched against a whole remainder of the string. *)
Fixpoint digits_then_unit (s : string) : bool :=
  match s with
  | EmptyString => false
  | String c rest =>
      if JsString.is_digit c then digits_then_unit rest
      else (Ascii.eqb c "b"%char || Ascii.eqb c "m"%char) && String.eqb rest EmptyString
  end.

Definition size_indicator (s : string) : bool :=
  match s with
  | String "-" (String d rest) => JsString.is_digit d && digits_then_unit rest
  | _ => false
  end.

Definition separator_to_dash (c : Ascii.ascii) : Ascii.ascii :=
  if Ascii.eqb c ":"%char || Ascii.eqb c "@"%char then "-"%char else c.

Definition normalizeModelName (modelName : string) : string :=
  let s := JsString.toLowerCase modelName in
  let s := JsString.map_chars separator_to_dash s in
  let s := JsString.strip_at_end size_indicator s in
  let s := JsString.strip_at_end (String.eqb "-instruct") s in
  let s := JsString.strip_at_end (String.eqb "-chat") s in
  JsString.strip_at_end (String.eqb "-latest") s.

(** The loop over [Object.entries(MODEL_CAPABILITIES)]. *)
Fixpoint partial_match (modelName normalizedName : string)
    (entries : list (string * ModelToolCapabilities))
  : option ModelToolCapabilities :=
  match entries with
  | [] => None
  | (knownModel, capabilities) :: rest =>
      if JsString.includes modelName knownModel
         || JsString.includes knownModel normalizedName
      then Some capabilities
      else partial_match modelName normalizedName rest
  end.

Definition getModelCapabilities (modelName : string) : TableValue :=
  let normalizedName := normalizeModelName modelName in
  match index modelName with
  | Some v => v
  | None =>
      match index normalizedName with
      | Some v => v
      | None =>
          match partial_match modelName normalizedName MODEL_CAPABILITIES with
          | Some capabilities => Entry capabilities
          | None => Entry DEFAULT_MODEL_CAPABILITIES
          end
      end
  end.

(** What [getModelCapabilities] writes with [console.warn]: one line before
    it returns the default, nothing when one of its lookups succeeds. *)
Definition unknown_model_warning (modelName : string) : option string :=
  let normalizedName := normalizeModelName modelName in
  match index modelName, index normalizedName,
        partial_match modelName normalizedName MODEL_CAPABILITIES with
  | None, None, None =>
      Some ("Unknown model: " +:+ modelName +:+ ". Tool calling disabled.")
  | _, _, _ => None
  end.

(** Property reads on the value returned by [getModelCapabilities].  An
    inherited member has none of the capability properties: each read is
    [undefined]. *)
Definition read {A} (f : ModelToolCapabilities -> A) (v : TableValue) : option A :=
  match v with
  | Entry c => Some (f c)
  | Inherited _ => None
  end.

(** [capabilities.supportsTools] in a condition. *)
Definition truthy_supportsTools (v : TableValue) : bool :=
  match read supportsTools v with Some b => b | None => false end.

(** [capabilities.customParser === name] *)
Definition customParser_is (name : string) (v : TableValue) : bool :=
  match read customParser v with
  | Some (Some p) => String.eqb p name
  | _ => false
  end.

(** [capabilities.multiTurnSupport === 'poor'] *)
Definition multiTurn_is_poor (v : TableValue) : bool :=
  match read multiTurnSupport v with
  | Some poor => true
  | _ => false
  end.

Definition modelSupportsTools (modelName : string) : bool :=
  truthy_supportsTools (getModelCapabilities modelName).

End ModelCapabilities.

Import ModelCapabilities.

(** ** Values shared by the translators *)

(** A JSON value.  A number is never computed with in the modelled code and
    is kept as its literal. *)
Inductive JsonValue :=
| JNull
| JBool (b : bool)
| JNumber (literal : string)
| JString (s : string)
| JArray (items : list JsonValue)
| JObject (members : list (string * JsonValue)).

(** The outcome of code that may throw; [Throw] carries the message of the
    error. *)
Inductive result (A : Type) :=
| Ok (a : A)
| Throw (message : string).
Arguments Ok {A} a.
Arguments Throw {A} message.

(** The types of [@google/genai] that the translators read. *)
Inductive Schema :=
  mkSchema (schema_type : option string)
           (schema_description : option string)
           (schema_properties : option (list (string * Schema)))
           (schema_required : option (list string))
           (schema_other : list (string * JsonValue)).

Definition schema_description_of (s : Schema) : option string :=
  match s with mkSchema _ d _ _ _ => d end.
Definition schema_properties_of (s : Schema) : option (list (string * Schema)) :=
  match s with mkSchema _ _ p _ _ => p end.
Definition schema_required_of (s : Schema) : option (list string) :=
  match s with mkSchema _ _ _ r _ => r end.
Definition set_schema_description (d : string) (s : Schema) : Schema :=
  match s with mkSchema t _ p r o => mkSchema t (Some d) p r o end.

Record FunctionDeclaration := {
  fd_name : option string;
  fd_description : option string;
  fd_parameters : option Schema
}.

(** A tool of the caller; [other_members] stands for the members of the
    other kinds of tool (retrieval, search, code execution). *)
Record Tool := {
  functionDeclarations : option (list FunctionDeclaration);
  other_members : list (string * JsonValue)
}.

(** A tool in the dialect sent to the backend:
    [{type: 'function', function: {name, description, parameters}}] with
    [parameters = {type: 'object', properties, required}]. *)
Record OllamaParameters := {
  op_properties : list (string * Schema);
  op_required : list string
}.

Record OllamaTool := {
  ot_name : string;
  ot_description : string;
  ot_parameters : OllamaParameters
}.

(** [x ?? d] and [x || d] on an optional value whose present values are
    all truthy. *)
Definition or_default {A} (d : A) (x : option A) : A :=
  match x with Some a => a | None => d end.

(** A line written with [console.warn]: its arguments in order. *)
Inductive ConsoleArg :=
| CText (s : string)
| CTool (t : Tool)
| CError (message : string).

Definition ConsoleLine : Type := list ConsoleArg.

(** The console after a call of [getModelCapabilities]. *)
Definition lookup_console (modelName : string) : list ConsoleLine :=
  match unknown_model_warning modelName with
  | Some line => [[CText line]]
  | None => []
  end.

Definition LF : string := String (Ascii.ascii_of_N 10) EmptyString.

(** ** OllamaToolTranslator.ts *)

Module OllamaToolTranslator.

Definition is_angle (c : Ascii.ascii) : bool :=
  Ascii.eqb c "<"%char || Ascii.eqb c ">"%char.

Definition is_LF (c : Ascii.ascii) : bool := (JsString.code c =? 10)%N.

(** [s.replace(/\n\s*\n/g, '\n')].  A match starts at a line feed and,
    [\s*] being greedy, ends at the last line feed of the white space that
    follows it.  [pending] is [None] outside a candidate match; inside one
    it holds the white space read since the last line feed, which is part
    of the match only if another line feed follows. *)
Fixpoint collapse_newlines (pending : option string) (s : string) : string :=
  match s with
  | EmptyString => or_default EmptyString pending
  | String c s' =>
      match pending with
      | None =>
          String c (collapse_newlines (if is_LF c then Some EmptyString else None) s')
      | Some ws =>
          if is_LF c then collapse_newlines (Some EmptyString) s'
          else if JsString.is_space c
               then collapse_newlines (Some (ws +:+ String c EmptyString)) s'
               else ws +:+ String c (collapse_newlines None s')
      end
  end.

Definition toolFormat_is (f : ToolFormat) (capabilities : ModelToolCapabilities) : bool :=
  bool_decide (toolFormat capabilities = f).

Definition sanitizeDescription (description : string)
    (capabilities : ModelToolCapabilities) : string :=
  if String.eqb description EmptyString then "No description provided"
  else
    let sanitized :=
      JsString.trim
        (collapse_newlines None
           (JsString.filter_chars (fun c => negb (is_angle c)) description)) in
    let sanitized :=
      if toolFormat_is hermes capabilities
         && negb (JsString.includes (JsString.toLowerCase sanitized) "function")
         && negb (JsString.includes (JsString.toLowerCase sanitized) "tool")
      then "Function to " +:+ JsString.toLowerCase sanitized
      else sanitized in
    let maxLength := if toolFormat_is custom capabilities then 200 else 500 in
    if Nat.ltb maxLength (String.length sanitized)
    then JsString.take (maxLength - 3) sanitized +:+ "..."
    else sanitized.

(** The body of the loop of [enhanceParameterDescriptions] for one
    property. *)
Definition enhance_property (value : Schema) : Schema :=
  match schema_description_of value with
  | Some originalDesc =>
      if negb (String.eqb originalDesc EmptyString)
         && negb (JsString.includes originalDesc "Parameter:")
      then set_schema_description ("Parameter: " +:+ originalDesc) value
      else value
  | None => value
  end.

Definition enhanceParameterDescriptions (properties : list (string * Schema))
  : list (string * Schema) :=
  map (fun kv => (kv.1, enhance_property kv.2)) properties.

Definition convertParameters (functionDecl : FunctionDeclaration)
    (capabilities : ModelToolCapabilities) : OllamaParameters :=
  match fd_parameters functionDecl with
  | None => {| op_properties := []; op_required := [] |}
  | Some parameters =>
      let properties := or_default [] (schema_properties_of parameters) in
      {| op_properties :=
           if toolFormat_is hermes capabilities
           then enhanceParameterDescriptions properties
           else properties;
         op_required := or_default [] (schema_required_of parameters) |}
  end.

Definition convertToOpenAIFormat (functionDecl : FunctionDeclaration)
    (capabilities : ModelToolCapabilities) : OllamaTool :=
  {| ot_name := or_default "unnamed_function" (fd_name functionDecl);
     ot_description :=
       sanitizeDescription (or_default EmptyString (fd_description functionDecl))
         capabilities;
     ot_parameters := convertParameters functionDecl capabilities |}.

Definition convertToHermesFormat (functionDecl : FunctionDeclaration)
    (capabilities : ModelToolCapabilities) : OllamaTool :=
  let description := or_default EmptyString (fd_description functionDecl) in
  let enhancedDescription :=
    description +:+ LF +:+ LF +:+ "Use this tool when you need to "
      +:+ JsString.toLowerCase description +:+ "." in
  {| ot_name := or_default "unnamed_function" (fd_name functionDecl);
     ot_description := sanitizeDescription enhancedDescription capabilities;
     ot_parameters := convertParameters functionDecl capabilities |}.

Definition convertToQwenCoderFormat (functionDecl : FunctionDeclaration)
    (capabilities : ModelToolCapabilities) : OllamaTool :=
  let description := or_default EmptyString (fd_description functionDecl) in
  let coderDescription :=
    description +:+ LF +:+ LF +:+ "Usage: Call this function when you need to "
      +:+ JsString.toLowerCase description +:+ "." +:+ LF
      +:+ "Think step by step before calling this function." in
  {| ot_name := or_default "unnamed_function" (fd_name functionDecl);
     ot_description := sanitizeDescription coderDescription capabilities;
     ot_parameters := convertParameters functionDecl capabilities |}.

Definition convertToCustomFormat (functionDecl : FunctionDeclaration)
    (capabilities : ModelToolCapabilities) : OllamaTool :=
  match customParser capabilities with
  | Some "qwen3coder" => convertToQwenCoderFormat functionDecl capabilities
  | _ => convertToOpenAIFormat functionDecl capabilities
  end.

(** Returns the converted tool ([None] is [null]) and what was written to
    the console. *)
Definition convertSingleTool (tool : Tool) (capabilities : TableValue)
  : option OllamaTool * list ConsoleLine :=
  match functionDeclarations tool with
  | None => (None, [[CText "Tool missing functionDeclarations:"; CTool tool]])
  | Some decls =>
      match decls with
      | [] => (None, [[CText "Tool has empty functionDeclarations:"; CTool tool]])
      | functionDecl :: _ =>
          match capabilities with
          | Entry c =>
              (Some match toolFormat c with
                    | openai => convertToOpenAIFormat functionDecl c
                    | hermes => convertToHermesFormat functionDecl c
                    | custom => convertToCustomFormat functionDecl c
                    end, [])
          | Inherited _ => (None, [[CText "Unknown tool format: undefined"]])
          end
      end
  end.

(** [tools.slice(0, capabilities.maxTools)]; an [undefined] end keeps the
    whole array. *)
Definition slice_to_maxTools (tools : list Tool) (capabilities : TableValue)
  : list Tool :=
  match read maxTools capabilities with
  | Some n => take n tools
  | None => tools
  end.

Definition translate_with_console (tools : list Tool) (modelName : string)
  : list OllamaTool * list ConsoleLine :=
  let capabilities := getModelCapabilities modelName in
  let written := lookup_console modelName in
  if negb (truthy_supportsTools capabilities) || bool_decide (length tools = 0)
  then ([], written)
  else
    let limitedTools := slice_to_maxTools tools capabilities in
    let converted := map (fun tool => convertSingleTool tool capabilities) limitedTools in
    (omap fst converted, written ++ concat (map snd converted)).

Definition translateGeminiToolsToOllama (tools : list Tool) (modelName : string)
  : list OllamaTool :=
  (translate_with_console tools modelName).1.

Record ToolValidation := {
  valid : list Tool;
  invalid : list Tool;
  warnings : list string
}.

Section Validation.

(** [JSON.stringify] on a tool. *)
Variable JSON_stringify : Tool -> string.

Definition has_declarations (tool : Tool) : bool :=
  match functionDeclarations tool with
  | Some (_ :: _) => true
  | _ => false
  end.

Definition missing_declarations_warning (tool : Tool) : string :=
  "Tool missing valid functionDeclarations: " +:+ JSON_stringify tool.

Definition truncation_warning (modelName : string) (max got : nat) : string :=
  "Model " +:+ modelName +:+ " supports max " +:+ JsString.of_nat max
    +:+ " tools, got " +:+ JsString.of_nat got +:+ ". Truncating.".

Definition unsupported_warning (modelName : string) : string :=
  "Model " +:+ modelName +:+ " does not support tool calling".

(** [tools.length > capabilities.maxTools], giving the limit read;
    the comparison with [undefined] is false. *)
Definition exceeded_limit (tools : list Tool) (capabilities : TableValue)
  : option nat :=
  match read maxTools capabilities with
  | Some max => if Nat.ltb max (length tools) then Some max else None
  | None => None
  end.

Definition validateToolsForModel (tools : list Tool) (modelName : string)
  : ToolValidation :=
  let capabilities := getModelCapabilities modelName in
  if negb (truthy_supportsTools capabilities)
  then {| valid := []; invalid := tools;
          warnings := [unsupported_warning modelName] |}
  else
    {| valid := filter (fun t => has_declarations t = true) tools;
       invalid := filter (fun t => has_declarations t = false) tools;
       warnings :=
         match exceeded_limit tools capabilities with
         | Some max => [truncation_warning modelName max (length tools)]
         | None => []
         end
         ++ map missing_declarations_warning
              (filter (fun t => has_declarations t = false) tools) |}.

End Validation.

End OllamaToolTranslator.

(** ** ollamaClient.ts: the wire types *)

(** [{function: {name, arguments}}].  The declared type of [arguments] is an
    object, but the value is whatever the backend sent and the validator
    inspects it with [typeof]; [None] is [undefined]. *)
Record OllamaToolCall := {
  call_name : string;
  call_arguments : option JsonValue
}.

(** The message and the response are objects that refer to other objects:
    the response to its message, the message to the array of its tool
    calls.  [Message] and [ChatResponse] leave open what such a reference
    is: the object itself when the functions are read as functions on
    values, a location when the store is modelled. *)
Record Message (Calls : Type) := {
  role : string;
  content : string;
  tool_calls : option Calls
}.
Arguments role {Calls} _.
Arguments content {Calls} _.
Arguments tool_calls {Calls} _.

(** The counters and durations are whole numbers in the range in which
    JavaScript numbers are exact. *)
Record ChatResponse (Msg : Type) := {
  model : string;
  created_at : string;
  message : Msg;
  done : bool;
  done_reason : option string;
  total_duration : option Z;
  load_duration : option Z;
  prompt_eval_count : option Z;
  prompt_eval_duration : option Z;
  eval_count : option Z;
  eval_duration : option Z
}.
Arguments model {Msg} _.
Arguments created_at {Msg} _.
Arguments message {Msg} _.
Arguments done {Msg} _.
Arguments done_reason {Msg} _.
Arguments total_duration {Msg} _.
Arguments load_duration {Msg} _.
Arguments prompt_eval_count {Msg} _.
Arguments prompt_eval_duration {Msg} _.
Arguments eval_count {Msg} _.
Arguments eval_duration {Msg} _.

Abbreviation OllamaMessage := (Message (list OllamaToolCall)).
Abbreviation OllamaChatResponse := (ChatResponse OllamaMessage).

(** [message.tool_calls = calls] and [response.message = m], as updates of
    the record. *)
Definition set_tool_calls {A B} (calls : option B) (m : Message A) : Message B :=
  {| role := role m; content := content m; tool_calls := calls |}.

Definition set_message {M N} (m : N) (response : ChatResponse M) : ChatResponse N :=
  {| model := model response; created_at := created_at response;
     message := m;
     done := done response; done_reason := done_reason response;
     total_duration := total_duration response;
     load_duration := load_duration response;
     prompt_eval_count := prompt_eval_count response;
     prompt_eval_duration := prompt_eval_duration response;
     eval_count := eval_count response;
     eval_duration := eval_duration response |}.

(** The part of [GenerateContentResponse] that the translators fill in. *)
Record FunctionCall := {
  name : string;
  args : option JsonValue
}.

Inductive Part :=
| TextPart (text : string)
| FunctionCallPart (functionCall : FunctionCall).

Inductive FinishReason := STOP.

Record UsageMetadata := {
  promptTokenCount : Z;
  candidatesTokenCount : Z;
  totalTokenCount : Z
}.

(** [candidates] always holds one candidate with role ['model'], index 0 and
    no safety ratings; its parts and finish reason are kept. *)
Record GenerateContentResponse := {
  parts : list Part;
  finishReason : option FinishReason;
  usageMetadata : UsageMetadata;
  modelVersion : string
}.

(** [n || 0] *)
Definition count_or_zero (n : option Z) : Z := or_default 0%Z n.

(** The double nearest to a whole number, ties going to the even
    significand of 53 bits: what an arithmetic operation of the program
    returns for a result that is whole (and smaller in size than 2^1024,
    where the program has [Infinity]). *)
Definition nearest_double (z : Z) : Z :=
  let size := Z.abs z in
  let bits := (Z.log2 size + 1)%Z in
  if (bits <=? 53)%Z then z
  else
    let shift := (bits - 53)%Z in
    let significand := Z.shiftr size shift in
    let rest := Z.land size (Z.ones shift) in
    let half := Z.shiftl 1 (shift - 1) in
    let up := (half <? rest)%Z || ((rest =? half)%Z && Z.odd significand) in
    (Z.sgn z * Z.shiftl (if up then significand + 1 else significand) shift)%Z.

(** [a + b] on two counts. *)
Definition number_add (a b : Z) : Z := nearest_double (a + b).

Definition usage_of (response : OllamaChatResponse) : UsageMetadata :=
  {| promptTokenCount := count_or_zero (prompt_eval_count response);
     candidatesTokenCount := count_or_zero (eval_count response);
     totalTokenCount :=
       number_add (count_or_zero (prompt_eval_count response))
                  (count_or_zero (eval_count response)) |}.

Definition calls_in_parts (ps : list Part) : list FunctionCall :=
  omap (fun p => match p with FunctionCallPart fc => Some fc | TextPart _ => None end) ps.

Definition function_calls (response : GenerateContentResponse) : list FunctionCall :=
  calls_in_parts (parts response).

(** ** OllamaResponseTranslator.ts *)

Module OllamaResponseTranslator.

Record ResponseTranslationStats := {
  totalToolCalls : nat;
  validToolCalls : nat;
  hallucinatedToolCalls : nat;
  invalidJsonCalls : nat;
  unknownToolCalls : nat;
  warnings : list string
}.

(** What the methods write: the [stats] object they share and the
    console. *)
Record Effects := {
  stats : ResponseTranslationStats;
  console : list ConsoleLine
}.

Definition update_stats (f : ResponseTranslationStats -> ResponseTranslationStats)
    (e : Effects) : Effects :=
  {| stats := f (stats e); console := console e |}.

Definition console_warn (line : ConsoleLine) (e : Effects) : Effects :=
  {| stats := stats e; console := console e ++ [line] |}.

Definition push_warning (w : string) (s : ResponseTranslationStats)
  : ResponseTranslationStats :=
  {| totalToolCalls := totalToolCalls s; validToolCalls := validToolCalls s;
     hallucinatedToolCalls := hallucinatedToolCalls s;
     invalidJsonCalls := invalidJsonCalls s;
     unknownToolCalls := unknownToolCalls s;
     warnings := warnings s ++ [w] |}.

Definition incr_unknownToolCalls (s : ResponseTranslationStats)
  : ResponseTranslationStats :=
  {| totalToolCalls := totalToolCalls s; validToolCalls := validToolCalls s;
     hallucinatedToolCalls := hallucinatedToolCalls s;
     invalidJsonCalls := invalidJsonCalls s;
     unknownToolCalls := S (unknownToolCalls s);
     warnings := warnings s |}.

Definition incr_invalidJsonCalls (s : ResponseTranslationStats)
  : ResponseTranslationStats :=
  {| totalToolCalls := totalToolCalls s; validToolCalls := validToolCalls s;
     hallucinatedToolCalls := hallucinatedToolCalls s;
     invalidJsonCalls := S (invalidJsonCalls s);
     unknownToolCalls := unknownToolCalls s;
     warnings := warnings s |}.

Definition set_totals (total valid : nat) (s : ResponseTranslationStats)
  : ResponseTranslationStats :=
  {| totalToolCalls := total; validToolCalls := valid;
     hallucinatedToolCalls := total - valid;
     invalidJsonCalls := invalidJsonCalls s;
     unknownToolCalls := unknownToolCalls s;
     warnings := warnings s |}.

Definition initial_stats : ResponseTranslationStats :=
  {| totalToolCalls := 0; validToolCalls := 0; hallucinatedToolCalls := 0;
     invalidJsonCalls := 0; unknownToolCalls := 0; warnings := [] |}.

(** The fresh [stats] object, and nothing written to the console yet. *)
Definition initial_effects : Effects := {| stats := initial_stats; console := [] |}.

(** The effects where [validateAndTranslateResponse] starts to validate:
    the capabilities were looked up and the [stats] object is fresh. *)
Definition effects_after_lookup (modelName : string) : Effects :=
  {| stats := initial_stats; console := lookup_console modelName |}.

Definition declares (toolName : string) (func : FunctionDeclaration) : bool :=
  match fd_name func with
  | Some n => String.eqb n toolName
  | None => false
  end.

Fixpoint findRegisteredTool (toolName : string) (registeredTools : list Tool)
  : option Tool :=
  match registeredTools with
  | [] => None
  | tool :: rest =>
      match functionDeclarations tool with
      | Some decls =>
          if existsb (declares toolName) decls then Some tool
          else findRegisteredTool toolName rest
      | None => findRegisteredTool toolName rest
      end
  end.

(** [typeof] of a value that is neither a string nor an object. *)
Definition typeof_other (v : option JsonValue) : string :=
  match v with
  | None => "undefined"
  | Some (JBool _) => "boolean"
  | Some (JNumber _) => "number"
  | Some (JString _) => "string"
  | Some _ => "object"
  end.

(** [a.key] on a parsed object; a JSON array has neither of the keys that
    are read. *)
Fixpoint member (key : string) (members : list (string * JsonValue))
  : option JsonValue :=
  match members with
  | [] => None
  | (k, v) :: rest => if String.eqb k key then Some v else member key rest
  end.

(** [v && typeof v === 'object'] *)
Definition is_object (v : option JsonValue) : bool :=
  match v with
  | Some (JObject _) | Some (JArray _) => true
  | _ => false
  end.

Definition processQwenCoderArguments (args : option JsonValue) : option JsonValue :=
  match args with
  | Some (JObject members) =>
      if is_object (member "parameters" members) then member "parameters" members
      else if is_object (member "arguments" members) then member "arguments" members
      else args
  | _ => args
  end.

Section WithParser.

(** [JSON.parse]; on failure the message of the [SyntaxError]. *)
Variable JSON_parse : string -> result JsonValue.

(** The [try] block of [validateToolCallArguments]: the message of the
    error thrown, if any. *)
Definition arguments_error (arguments : option JsonValue) : option string :=
  match arguments with
  | Some (JString s) =>
      match JSON_parse s with
      | Ok _ => None
      | Throw message => Some message
      end
  | Some JNull => Some "Arguments cannot be null"
  | Some (JObject _) | Some (JArray _) => None
  | other => Some ("Invalid arguments type: " +:+ typeof_other other)
  end.

Definition validateToolCallArguments (toolCall : OllamaToolCall) (e : Effects)
  : bool * Effects :=
  match arguments_error (call_arguments toolCall) with
  | None => (true, e)
  | Some errorMessage =>
      let e := update_stats incr_invalidJsonCalls e in
      let e :=
        update_stats
          (push_warning ("Invalid JSON in tool call arguments for "
                         +:+ call_name toolCall +:+ ": " +:+ errorMessage)) e in
      let e :=
        console_warn
          [CText ("Invalid JSON in tool call arguments for "
                  +:+ call_name toolCall +:+ ":"); CError errorMessage] e in
      (false, e)
  end.

Definition qwen_formatting (toolName : string) : bool :=
  JsString.includes toolName "<" || JsString.includes toolName ">".

Definition follow_up_name (toolName : string) : bool :=
  JsString.includes (JsString.toLowerCase toolName) "follow"
  || JsString.includes (JsString.toLowerCase toolName) "next".

Definition validateForModelSpecificRequirements (toolCall : OllamaToolCall)
    (capabilities : TableValue) (e : Effects) : bool * Effects :=
  if customParser_is "qwen3coder" capabilities && qwen_formatting (call_name toolCall)
  then (false,
        update_stats
          (push_warning ("Qwen model used invalid formatting in tool name: "
                         +:+ call_name toolCall)) e)
  else if multiTurn_is_poor capabilities && follow_up_name (call_name toolCall)
  then (false,
        update_stats
          (push_warning ("DeepSeek model may be hallucinating follow-up call: "
                         +:+ call_name toolCall)) e)
  else (true, e).

Definition isValidToolCall (toolCall : OllamaToolCall) (capabilities : TableValue)
    (registeredTools : list Tool) (e : Effects) : bool * Effects :=
  match findRegisteredTool (call_name toolCall) registeredTools with
  | None =>
      let e := update_stats incr_unknownToolCalls e in
      let e :=
        update_stats
          (push_warning ("Unknown tool called: " +:+ call_name toolCall)) e in
      let e :=
        console_warn
          [CText ("Model attempted to call non-existent tool: "
                  +:+ call_name toolCall)] e in
      (false, e)
  | Some _ =>
      let '(ok, e) := validateToolCallArguments toolCall e in
      if ok then validateForModelSpecificRequirements toolCall capabilities e
      else (false, e)
  end.

(** [calls.filter(call => this.isValidToolCall(call, ...))]: the callback
    runs on the elements in order and writes to the shared [stats]. *)
Fixpoint filter_valid (calls : list OllamaToolCall) (capabilities : TableValue)
    (registeredTools : list Tool) (e : Effects)
  : list OllamaToolCall * Effects :=
  match calls with
  | [] => ([], e)
  | call :: rest =>
      let '(ok, e) := isValidToolCall call capabilities registeredTools e in
      let '(kept, e) := filter_valid rest capabilities registeredTools e in
      (if ok then call :: kept else kept, e)
  end.

(** [None] is the [null] returned when the conversion throws. *)
Definition convertToolCallToFunctionCall (toolCall : OllamaToolCall)
    (capabilities : TableValue)
  : option FunctionCall * list ConsoleLine :=
  let parsed :=
    match call_arguments toolCall with
    | Some (JString s) =>
        match JSON_parse s with
        | Ok v => Ok (Some v)
        | Throw message => Throw message
        end
    | other => Ok other
    end in
  match parsed with
  | Ok args =>
      (Some {| name := call_name toolCall;
               args := if customParser_is "qwen3coder" capabilities
                       then processQwenCoderArguments args
                       else args |}, [])
  | Throw message =>
      (None, [[CText "Failed to convert tool call to function call:";
               CError message]])
  end.

Definition text_parts (response : OllamaChatResponse) : list Part :=
  if negb (String.eqb (content (message response)) EmptyString)
     && negb (String.eqb (JsString.trim (content (message response))) EmptyString)
  then [TextPart (content (message response))]
  else [].

Definition convertToGeminiFormat (response : OllamaChatResponse)
    (capabilities : TableValue) (e : Effects)
  : GenerateContentResponse * Effects :=
  let converted :=
    map (fun toolCall => convertToolCallToFunctionCall toolCall capabilities)
        (or_default [] (tool_calls (message response))) in
  let parts :=
    text_parts response ++ map FunctionCallPart (omap fst converted) in
  ({| parts := match parts with [] => [TextPart EmptyString] | _ => parts end;
      finishReason := if done response then Some STOP else None;
      usageMetadata := usage_of response;
      modelVersion := model response |},
   {| stats := stats e; console := console e ++ concat (map snd converted) |}).

Definition with_tool_calls (calls : list OllamaToolCall)
    (response : OllamaChatResponse) : OllamaChatResponse :=
  set_message (set_tool_calls (Some calls) (message response)) response.

Definition hallucination_report (modelName : string) (e : Effects) : Effects :=
  if Nat.ltb 0 (hallucinatedToolCalls (stats e))
  then
    console_warn
      [CText ("Model " +:+ modelName +:+ " hallucinated "
              +:+ JsString.of_nat (hallucinatedToolCalls (stats e))
              +:+ " tool calls")]
      (update_stats
         (push_warning ("Filtered "
                        +:+ JsString.of_nat (hallucinatedToolCalls (stats e))
                        +:+ " hallucinated tool calls from " +:+ modelName)) e)
  else e.

(** The function works on [validatedResponse], a copy of its argument
    made by [JSON.parse(JSON.stringify(response))].  The copy has the
    contents of the argument, which is all that this function on values
    can see; that it is another object is the subject of the section on
    the store below. *)
Definition validateAndTranslateResponse (response : OllamaChatResponse)
    (modelName : string) (registeredTools : list Tool)
  : GenerateContentResponse * Effects :=
  let capabilities := getModelCapabilities modelName in
  let e := effects_after_lookup modelName in
  let validatedResponse := response in
  let '(validatedResponse, e) :=
    match tool_calls (message validatedResponse) with
    | Some calls =>
        let '(validCalls, e) := filter_valid calls capabilities registeredTools e in
        let e := update_stats (set_totals (length calls) (length validCalls)) e in
        (with_tool_calls validCalls validatedResponse,
         hallucination_report modelName e)
    | None => (validatedResponse, e)
    end in
  convertToGeminiFormat validatedResponse capabilities e.

End WithParser.

End OllamaResponseTranslator.


(** ** ollamaClient.ts: the client *)

Module OllamaClient.

(** [convertFromOllamaResponse]: no validation, the arguments of a tool call
    are passed on as received. *)
Definition convertFromOllamaResponse (response : OllamaChatResponse)
  : GenerateContentResponse :=
  let parts :=
    (if negb (String.eqb (content (message response)) EmptyString)
     then [TextPart (content (message response))] else [])
    ++ map (fun toolCall =>
              FunctionCallPart {| name := call_name toolCall;
                                  args := call_arguments toolCall |})
           (or_default [] (tool_calls (message response))) in
  {| parts := match parts with [] => [TextPart EmptyString] | _ => parts end;
     finishReason := if done response then Some STOP else None;
     usageMetadata := usage_of response;
     modelVersion := model response |}.

(** What a consumer that drains the generator observes, in order. *)
Inductive StreamEvent :=
| Yield (response : GenerateContentResponse)
| ConsoleWarn (line : string) (error : string)
| ReleaseLock.

Definition yielded (events : list StreamEvent) : list GenerateContentResponse :=
  omap (fun ev => match ev with Yield r => Some r | _ => None end) events.

(** [text.split('\n')] followed by [lines.pop()]: the lines that are
    complete and the unfinished rest. *)
Fixpoint split_lines (text : string) : list string * string :=
  match text with
  | EmptyString => ([], EmptyString)
  | String c text' =>
      let '(lines, rest) := split_lines text' in
      if OllamaToolTranslator.is_LF c then (EmptyString :: lines, rest)
      else match lines with
           | [] => ([], String c rest)
           | line :: lines' => (String c line :: lines', rest)
           end
  end.

Section Stream.

(** The [try] block applied to one line: [JSON.parse(line)] read at the type
    of a frame.  [Throw] is an error raised inside the block, the
    [SyntaxError] of a malformed line in the first place. *)
Variable JSON_parse : string -> result OllamaChatResponse.

Definition blank (line : string) : bool :=
  String.eqb (JsString.trim line) EmptyString.

(** The [for] loop over the lines of one read; the flag tells whether the
    generator returned. *)
Fixpoint process_lines (lines : list string) : list StreamEvent * bool :=
  match lines with
  | [] => ([], false)
  | line :: rest =>
      if blank line then process_lines rest
      else
        match JSON_parse line with
        | Ok streamResponse =>
            if done streamResponse
            then ([Yield (convertFromOllamaResponse streamResponse)], true)
            else
              let '(events, returned) := process_lines rest in
              (Yield (convertFromOllamaResponse streamResponse) :: events, returned)
        | Throw error =>
            let '(events, returned) := process_lines rest in
            (ConsoleWarn line error :: events, returned)
        end
  end.

(** The [while] loop; [chunks] are the texts decoded from the successive
    reads, after which the reader reports the end of the body. *)
Fixpoint read_loop (buffer : string) (chunks : list string) : list StreamEvent :=
  match chunks with
  | [] => []
  | value :: chunks' =>
      let '(lines, buffer) := split_lines (buffer +:+ value) in
      let '(events, returned) := process_lines lines in
      if returned then events else events ++ read_loop buffer chunks'
  end.

(** The generator once the streaming request has answered with a body. *)
Definition generateContentStream (chunks : list string) : list StreamEvent :=
  read_loop EmptyString chunks ++ [ReleaseLock].

(** The text of the whole body, and its complete lines. *)
Definition body_text (chunks : list string) : string :=
  foldr String.append EmptyString chunks.

Definition complete_lines (chunks : list string) : list string :=
  (split_lines (body_text chunks)).1.

Definition done_frame (line : string) : bool :=
  negb (blank line) &&
  match JSON_parse line with
  | Ok streamResponse => done streamResponse
  | Throw _ => false
  end.

Definition malformed (line : string) : bool :=
  negb (blank line) &&
  match JSON_parse line with
  | Ok _ => false
  | Throw _ => true
  end.

End Stream.

(** What [fetch] and the reading of the body come to for one attempt;
    errors are given as [String(error)] renders them. *)
Inductive FetchOutcome :=
| Rejected (error : string)
| Responded (status : nat) (statusText : string) (json : result JsonValue).

Inductive RequestEvent :=
| Fetch (attempt : nat)
| Sleep (delay : Z).

Definition response_ok (status : nat) : bool :=
  Nat.leb 200 status && Nat.leb status 299.

(** [Math.min(1000 * Math.pow(2, attempt), 10000)] *)
Definition backoff_delay (attempt : nat) : Z :=
  Z.min (1000 * 2 ^ Z.of_nat attempt) 10000.

(** [maxRetries] is a [number], and the configuration is only rejected when
    it is negative ([config.maxRetries < 0]): it need not be whole.  A finite
    number is given as a rational, which every double is. *)
Inductive Number :=
| NaN
| Infinity
| NegativeInfinity
| Finite (q : Q).

(** [attempt <= this.maxRetries] *)
Definition within_limit (attempt : nat) (maxRetries : Number) : bool :=
  match maxRetries with
  | Finite q => Qle_bool (inject_Z (Z.of_nat attempt)) q
  | Infinity => true
  | NaN | NegativeInfinity => false
  end.

(** [attempt === this.maxRetries] *)
Definition is_limit (attempt : nat) (maxRetries : Number) : bool :=
  match maxRetries with
  | Finite q => Qeq_bool (inject_Z (Z.of_nat attempt)) q
  | NaN | Infinity | NegativeInfinity => false
  end.

(** The message of the error thrown after the last attempt.  It is built
    where [attempt === this.maxRetries], so that [this.maxRetries + 1] is
    [attempt + 1]. *)
Definition failure_message (attempt : nat) (error : string) : string :=
  "Ollama request failed after " +:+ JsString.of_nat (attempt + 1)
    +:+ " attempts: " +:+ error.

Section Request.

(** [fetch n] is the outcome of the attempt numbered [n]. *)
Variable maxRetries : Number.
Variable fetch : nat -> FetchOutcome.

(** The error caught in the attempt, if it fails. *)
Definition attempt_result (attempt : nat) : result JsonValue :=
  match fetch attempt with
  | Rejected error => Throw error
  | Responded status statusText json =>
      if response_ok status then
        match json with
        | Ok v => Ok v
        | Throw message => Throw ("SyntaxError: " +:+ message)
        end
      else Throw ("Error: Ollama API request failed: " +:+ JsString.of_nat status
                  +:+ " " +:+ statusText)
  end.

(** The [for] loop from [attempt] on, and the [throw] that follows it.  With
    [maxRetries] infinite the loop has no bound of its own: [fuel] bounds
    the iterations looked at, and [None] says that more remain.  The counter
    is a natural number, as the counter of the program is below 2^53. *)
Fixpoint attempts_from (fuel attempt : nat)
  : option (result JsonValue * list RequestEvent) :=
  match fuel with
  | 0 => None
  | S fuel' =>
      if within_limit attempt maxRetries then
        match attempt_result attempt with
        | Ok v => Some (Ok v, [Fetch attempt])
        | Throw error =>
            if is_limit attempt maxRetries
            then Some (Throw (failure_message attempt error), [Fetch attempt])
            else
              match attempts_from fuel' (S attempt) with
              | Some (r, events) =>
                  Some (r, Fetch attempt :: Sleep (backoff_delay attempt) :: events)
              | None => None
              end
        end
      else Some (Throw "Unexpected error in makeRequest", [])
  end.

Definition makeRequest (fuel : nat)
  : option (result JsonValue * list RequestEvent) :=
  attempts_from fuel 0.

End Request.

(** The attempts made and the delays waited, in order. *)
Definition fetched (events : list RequestEvent) : list nat :=
  omap (fun ev => match ev with Fetch n => Some n | Sleep _ => None end) events.

Definition slept (events : list RequestEvent) : list Z :=
  omap (fun ev => match ev with Sleep d => Some d | Fetch _ => None end) events.

(** The events of the attempts [from], ..., [from + n - 1] when each is
    followed by its delay. *)
Definition failed_rounds (from n : nat) : list RequestEvent :=
  concat (map (fun i => [Fetch i; Sleep (backoff_delay i)]) (seq from n)).

End OllamaClient.


(** ** The response as an object in the store

    [validateAndTranslateResponse] receives a reference.  Here the objects
    that a write of the function could reach are cells of a store: the
    response, its message and the array of tool calls.  The tool calls and
    what lies below them are never assigned to and are kept as values. *)

Module Store.

Definition loc := nat.

Inductive Object :=
| ResponseObject (response : ChatResponse loc)
| MessageObject (message : Message loc)
| ArrayObject (items : list OllamaToolCall).

Abbreviation Store := (gmap loc Object).

(** [new] object: a location not in use. *)
Definition alloc (o : Object) (σ : Store) : loc * Store :=
  let l := fresh (dom σ) in (l, <[l := o]> σ).
Arguments alloc : simpl never.

Definition response_at (σ : Store) (l : loc) : option (ChatResponse loc) :=
  match σ !! l with Some (ResponseObject r) => Some r | _ => None end.

Definition message_at (σ : Store) (l : loc) : option (Message loc) :=
  match σ !! l with Some (MessageObject m) => Some m | _ => None end.

Definition array_at (σ : Store) (l : loc) : option (list OllamaToolCall) :=
  match σ !! l with Some (ArrayObject items) => Some items | _ => None end.

Definition tool_calls_at (σ : Store) (m : Message loc)
  : option (option (list OllamaToolCall)) :=
  match tool_calls m with
  | None => Some None
  | Some a => Some <$> array_at σ a
  end.

(** The value that the object at [l] holds, read through its references. *)
Definition snapshot (σ : Store) (l : loc) : option OllamaChatResponse :=
  r ← response_at σ l;
  m ← message_at σ (message r);
  calls ← tool_calls_at σ m;
  Some (set_message (set_tool_calls calls m) r).

(** [JSON.parse(JSON.stringify(response))]: every object reached from the
    response is built anew. *)
Definition deep_copy (l : loc) (σ : Store) : option (loc * Store) :=
  r ← response_at σ l;
  m ← message_at σ (message r);
  calls ← tool_calls_at σ m;
  let '(calls', σ) :=
    match calls with
    | Some items => let '(a, σ) := alloc (ArrayObject items) σ in (Some a, σ)
    | None => (None, σ)
    end in
  let '(m', σ) := alloc (MessageObject (set_tool_calls calls' m)) σ in
  Some (alloc (ResponseObject (set_message m' r)) σ).

Section WithParser.

Variable JSON_parse : string -> result JsonValue.

Import OllamaResponseTranslator.

(** [validateAndTranslateResponse] with its reads and writes.  The one
    assignment to an object that is not created by the function itself is
    [validatedResponse.message.tool_calls = validCalls]. *)
Definition validateAndTranslateResponse (response : loc) (modelName : string)
    (registeredTools : list Tool) (σ : Store)
  : option ((GenerateContentResponse * Effects) * Store) :=
  let capabilities := getModelCapabilities modelName in
  let e := effects_after_lookup modelName in
  '(validatedResponse, σ) ← deep_copy response σ;
  r ← response_at σ validatedResponse;
  m ← message_at σ (message r);
  '(e, σ) ←
    match tool_calls m with
    | Some a =>
        calls ← array_at σ a;
        let '(validCalls, e) :=
          filter_valid JSON_parse calls capabilities registeredTools e in
        let e := update_stats (set_totals (length calls) (length validCalls)) e in
        let '(validCalls_loc, σ) := alloc (ArrayObject validCalls) σ in
        let σ := <[message r := MessageObject (set_tool_calls (Some validCalls_loc) m)]> σ in
        Some (hallucination_report modelName e, σ)
    | None => Some (e, σ)
    end;
  v ← snapshot σ validatedResponse;
  Some (convertToGeminiFormat JSON_parse v capabilities e, σ).

End WithParser.

End Store.


(** ** ModelPromptEngineer.ts *)

Module ModelPromptEngineer.

(** A template literal that spans several lines, given line by line. *)
Definition lines (ls : list string) : string := String.concat LF ls.

(** A whole number inside a template literal. *)
Definition of_Z (z : Z) : string := NilEmpty.string_of_int (Z.to_int z).

(** The [{name, description}] objects, as pairs. *)
Definition extractToolList (tools : list Tool) : list (string * string) :=
  concat
    (map (fun tool =>
            match functionDeclarations tool with
            | Some decls =>
                map (fun func =>
                       (or_default "unnamed_function" (fd_name func),
                        or_default "No description available" (fd_description func)))
                    decls
            | None => []
            end) tools).

Definition tool_line (tool : string * string) : string :=
  "- **" +:+ tool.1 +:+ "**: " +:+ tool.2.

Definition tool_lines (tools : list Tool) : string :=
  lines (map tool_line (extractToolList tools)).

Definition generateHermesInstructions (tools : list Tool)
    (capabilities : ModelToolCapabilities) (modelName : string) : string :=
  let instructions :=
    lines
      [ "## Available Tools";
        "";
        "You have access to the following tools:";
        tool_lines tools;
        "";
        "## Tool Usage Guidelines";
        "";
        "1. **Think Step by Step**: Before calling any tool, think through what you need to accomplish";
        "2. **Use Tools Strategically**: Only call tools when they are necessary to complete the task";
        "3. **Validate Tool Existence**: Only call tools that are listed above - do not hallucinate tool names";
        "4. **Proper Format**: Use the exact tool names and follow the expected parameter format" ] in
  let instructions :=
    if customParser_is "qwen3coder" (Entry capabilities)
    then instructions +:+ LF
           +:+ "5. **Qwen-Specific**: Use clear, descriptive reasoning before tool calls"
           +:+ LF
           +:+ "6. **Avoid ReAct Patterns**: Do not use action/observation loops that might trigger stop words"
    else instructions in
  let instructions :=
    if negb (supportsParallel capabilities)
    then instructions +:+ LF
           +:+ "7. **Sequential Execution**: Call tools one at a time, not in parallel"
    else instructions in
  if Nat.ltb (maxTools capabilities) (length tools)
  then instructions +:+ LF
         +:+ "8. **Tool Limit**: You can use up to "
         +:+ JsString.of_nat (maxTools capabilities) +:+ " tools per request"
  else instructions.

(** [capabilities.config?.recommendedContextSize] when it is truthy. *)
Definition context_size (capabilities : ModelToolCapabilities) : option Z :=
  match config capabilities with
  | Some cfg =>
      match recommendedContextSize cfg with
      | Some n => if Z.eqb n 0 then None else Some n
      | None => None
      end
  | None => None
  end.

Definition generateAgenticInstructions (tools : list Tool)
    (capabilities : ModelToolCapabilities) (modelName : string) : string :=
  let instructions :=
    lines
      [ "## Agentic Tool Usage";
        "";
        "You are an autonomous AI agent with access to powerful tools. Use them strategically to accomplish complex tasks.";
        "";
        "### Available Tools:";
        tool_lines tools;
        "";
        "### Agentic Principles:";
        "1. **High-Level Planning**: Break complex tasks into manageable sub-tasks";
        "2. **Tool Orchestration**: Use multiple tools in sequence to achieve objectives";
        "3. **Autonomous Decision Making**: Decide which tools to use and when";
        "4. **Error Recovery**: If a tool call fails, adapt your approach";
        "5. **Goal-Oriented**: Keep the end objective in mind throughout execution" ] in
  let instructions :=
    match context_size capabilities with
    | Some n =>
        instructions +:+ LF
          +:+ "6. **Context Awareness**: Leverage the " +:+ of_Z n
          +:+ " token context window for complex reasoning"
    | None => instructions
    end in
  instructions +:+ LF +:+ LF
    +:+ lines
          [ "### Multi-Turn Workflow:";
            "- You excel at multi-turn conversations and complex task orchestration";
            "- Feel free to use multiple tools across several interactions";
            "- Maintain context and build upon previous tool results" ].

(** [capabilities.config?.requiresExplicitToolChoice] in a condition. *)
Definition explicit_tool_choice (capabilities : ModelToolCapabilities) : bool :=
  match config capabilities with
  | Some cfg => or_default false (requiresExplicitToolChoice cfg)
  | None => false
  end.

Definition generateStandardInstructions (tools : list Tool)
    (capabilities : ModelToolCapabilities) (modelName : string) : string :=
  let instructions :=
    lines
      [ "## Function Calling";
        "";
        "Available functions:";
        tool_lines tools;
        "";
        "## Usage Rules:";
        "1. Only call functions that are listed above";
        "2. Use proper JSON formatting for function arguments";
        "3. Do not hallucinate or invent function names" ] in
  let instructions :=
    if supportsParallel capabilities
    then instructions +:+ LF
           +:+ "4. You can call multiple functions in parallel when appropriate"
    else instructions +:+ LF
           +:+ "4. Call functions one at a time (parallel calls not supported)" in
  let instructions :=
    if explicit_tool_choice capabilities
    then instructions +:+ LF
           +:+ "5. Be explicit about when you need to use tools vs. providing direct responses"
    else instructions in
  let instructions :=
    if JsString.includes modelName "deepseek"
    then instructions +:+ LF +:+ LF
           +:+ lines
                 [ "## DeepSeek-Specific Notes:";
                   "- Prefer making multiple function calls in a single turn rather than multiple turns";
                   "- Focus on completing the task efficiently with minimal back-and-forth" ]
    else instructions in
  if JsString.includes modelName "mistral"
  then instructions +:+ LF +:+ LF
         +:+ lines
               [ "## Mistral-Specific Notes:";
                 "- Provide clear reasoning for why you're calling specific functions";
                 "- Use detailed function descriptions to guide your decisions" ]
  else instructions.

Definition generateToolInstructions (tools : list Tool)
    (capabilities : ModelToolCapabilities) (modelName : string) : string :=
  match promptStyle capabilities with
  | hermes_style => generateHermesInstructions tools capabilities modelName
  | agentic => generateAgenticInstructions tools capabilities modelName
  | standard => generateStandardInstructions tools capabilities modelName
  end.

(** On an inherited member [supportsTools] is undefined, so the prompt is
    returned at once. *)
Definition enhanceSystemPrompt (basePrompt modelName : string) (tools : list Tool)
  : string :=
  match getModelCapabilities modelName with
  | Entry capabilities =>
      if negb (supportsTools capabilities) || bool_decide (length tools = 0)
      then basePrompt
      else basePrompt +:+ LF +:+ LF
             +:+ generateToolInstructions tools capabilities modelName
  | Inherited _ => basePrompt
  end.

Definition enhanceForAgenticModel (userMessage : string) : string :=
  "Please approach this task autonomously using available tools as needed: "
    +:+ userMessage.

Definition enhanceForPoorMultiTurn (userMessage : string) : string :=
  userMessage +:+ LF +:+ LF
    +:+ "Please complete this task as thoroughly as possible in your response, using any necessary tools.".

Definition enhanceUserMessage (userMessage modelName : string)
    (availableTools : list Tool) : string :=
  match getModelCapabilities modelName with
  | Entry capabilities =>
      if negb (supportsTools capabilities) || bool_decide (length availableTools = 0)
      then userMessage
      else
        match promptStyle capabilities, multiTurnSupport capabilities with
        | agentic, _ => enhanceForAgenticModel userMessage
        | _, poor => enhanceForPoorMultiTurn userMessage
        | _, _ => userMessage
        end
  | Inherited _ => userMessage
  end.

End ModelPromptEngineer.

(** ** OllamaToolTranslationService.ts *)

Module OllamaToolTranslationService.

Record ToolTranslationResult := {
  tools : list OllamaTool;
  warnings : list string;
  supported : bool;
  capabilities : TableValue
}.

Section Service.

Variable JSON_stringify : Tool -> string.

Definition translateToolsToModel (offered : list Tool) (modelName : string)
  : ToolTranslationResult :=
  let capabilities := getModelCapabilities modelName in
  if negb (ModelCapabilities.modelSupportsTools modelName)
  then {| tools := [];
          warnings := ["Model " +:+ modelName +:+ " does not support tool calling"];
          supported := false;
          capabilities := capabilities |}
  else
    let validation :=
      OllamaToolTranslator.validateToolsForModel JSON_stringify offered modelName in
    {| tools :=
         OllamaToolTranslator.translateGeminiToolsToOllama
           (OllamaToolTranslator.valid validation) modelName;
       warnings := OllamaToolTranslator.warnings validation;
       supported := true;
       capabilities := capabilities |}.

End Service.

(** [toolCall] is of type [any]: [None] is [null] or [undefined]; an empty
    name is falsy. *)
Definition validateToolCall (toolCall : option OllamaToolCall) (modelName : string)
    (registeredTools : list Tool) : bool :=
  match toolCall with
  | None => false
  | Some call =>
      if String.eqb (call_name call) EmptyString then false
      else existsb
             (fun tool =>
                match functionDeclarations tool with
                | Some decls =>
                    existsb (OllamaResponseTranslator.declares (call_name call)) decls
                | None => false
                end) registeredTools
  end.

End OllamaToolTranslationService.

(** ** Notions of the further statements *)

(** Every character of the string satisfies [p]. *)
Fixpoint every_char (p : Ascii.ascii -> bool) (s : string) : bool :=
  match s with
  | EmptyString => true
  | String c s' => p c && every_char p s'
  end.

(** A character that [normalizeModelName] leaves in no name: a capital
    letter, a colon or an at sign. *)
Definition normalized_char (c : Ascii.ascii) : bool :=
  negb (JsString.in_range 65 90 c)
  && negb (Ascii.eqb c ":"%char) && negb (Ascii.eqb c "@"%char).

Definition not_angle (c : Ascii.ascii) : bool :=
  negb (OllamaToolTranslator.is_angle c).

Definition not_LF (c : Ascii.ascii) : bool :=
  negb (OllamaToolTranslator.is_LF c).

(** The text whose complete lines are [ls] and whose unfinished rest is
    [rest]. *)
Definition join_lines (ls : list string) (rest : string) : string :=
  foldr (fun line text => line +:+ LF +:+ text) rest ls.

(** The limit that [sanitizeDescription] applies. *)
Definition description_limit (capabilities : ModelToolCapabilities) : nat :=
  if OllamaToolTranslator.toolFormat_is custom capabilities then 200 else 500.

(** Whether the validator keeps a call, as a function of the call alone. *)
Definition kept_by_validator (JSON_parse : string -> result JsonValue)
    (capabilities : TableValue) (registeredTools : list Tool)
    (call : OllamaToolCall) : bool :=
  (OllamaResponseTranslator.isValidToolCall JSON_parse call capabilities
     registeredTools OllamaResponseTranslator.initial_effects).1.

(** The sum of the delays. *)
Definition total_delay (delays : list Z) : Z := foldr Z.add 0%Z delays.

(** A whole number of retries, as a number. *)
Definition whole (n : nat) : OllamaClient.Number :=
  OllamaClient.Finite (inject_Z (Z.of_nat n)).

(** ** The lookup as the specification words it *)

Module Specified.

(** Modelled on the words of the specification, to be compared with
    [getModelCapabilities]: exact match, exact match of the normalized id,
    then the first entry whose key the normalized id contains or is
    contained by, else the default. *)
Definition family_match (normalizedName : string)
    (entry : string * ModelToolCapabilities) : bool :=
  JsString.includes normalizedName entry.1 || JsString.includes entry.1 normalizedName.

Definition getModelCapabilities_specified (modelName : string) : ModelToolCapabilities :=
  let normalizedName := normalizeModelName modelName in
  match own_property modelName MODEL_CAPABILITIES with
  | Some c => c
  | None =>
      match own_property normalizedName MODEL_CAPABILITIES with
      | Some c => c
      | None =>
          match List.find (family_match normalizedName) MODEL_CAPABILITIES with
          | Some entry => entry.2
          | None => DEFAULT_MODEL_CAPABILITIES
          end
      end
  end.

End Specified.

(** ** Predicates of the statements *)

(** The test of the loop of [getModelCapabilities] fails on an entry. *)
Definition no_partial_match (modelName normalizedName : string)
    (entry : string * ModelToolCapabilities) : Prop :=
  JsString.includes modelName entry.1 = false /\
  JsString.includes entry.1 normalizedName = false.

(** Some function declaration of some registered tool has this name. *)
Definition registered (toolName : string) (registeredTools : list Tool) : Prop :=
  exists tool decls func,
    tool ∈ registeredTools /\ functionDeclarations tool = Some decls /\
    func ∈ decls /\ fd_name func = Some toolName.

(** The tool calls of a response, none when the property is absent. *)
Definition calls_of (response : OllamaChatResponse) : list OllamaToolCall :=
  or_default [] (tool_calls (message response)).

(** Arguments that are structured data: a string that parses, or an object
    or array; [v] is the structure. *)
Definition structured_arguments (JSON_parse : string -> result JsonValue)
    (arguments : option JsonValue) (v : JsonValue) : Prop :=
  (exists s, arguments = Some (JString s) /\ JSON_parse s = Ok v) \/
  (arguments = Some v /\
   OllamaResponseTranslator.is_object (Some v) = true).

(** The calls whose name the search of the registered tools does not find. *)
Definition unknown_calls (registeredTools : list Tool) (calls : list OllamaToolCall)
  : list OllamaToolCall :=
  filter (fun call =>
            OllamaResponseTranslator.findRegisteredTool (call_name call) registeredTools
            = None) calls.

(** ** Sample values *)

Module Sample.

(** A parser that knows the empty object, enough to run the examples. *)
Definition parse (text : string) : result JsonValue :=
  if String.eqb text "{}" then Ok (JObject [])
  else Throw "Unexpected token in JSON".

Definition declaration (n : string) : FunctionDeclaration :=
  {| fd_name := Some n; fd_description := Some "Looks things up";
     fd_parameters := None |}.

Definition tool (n : string) : Tool :=
  {| functionDeclarations := Some [declaration n]; other_members := [] |}.

Definition call (n : string) (arguments : JsonValue) : OllamaToolCall :=
  {| call_name := n; call_arguments := Some arguments |}.

(** A stand-in for [JSON.stringify], whose text no statement depends on. *)
Definition stringify (t : Tool) : string := "{}".

Definition response (calls : option (list OllamaToolCall)) (finished : bool)
  : OllamaChatResponse :=
  {| model := "m"; created_at := "2025-01-01T00:00:00Z";
     message := {| role := "assistant"; content := ""; tool_calls := calls |};
     done := finished; done_reason := None;
     total_duration := None; load_duration := None;
     prompt_eval_count := None; prompt_eval_duration := None;
     eval_count := None; eval_duration := None |}.

(** A frame parser for the examples: two lines are frames, the second of
    them the final one; anything else is malformed. *)
Definition frame (text : string) (finished : bool) : OllamaChatResponse :=
  {| model := "m"; created_at := "2025-01-01T00:00:00Z";
     message := {| role := "assistant"; content := text; tool_calls := None |};
     done := finished; done_reason := None;
     total_duration := None; load_duration := None;
     prompt_eval_count := None; prompt_eval_duration := None;
     eval_count := None; eval_duration := None |}.

Definition parse_frame (line : string) : result OllamaChatResponse :=
  if String.eqb line "{1}" then Ok (frame "Hel" false)
  else if String.eqb line "{3}" then Ok (frame "lo" true)
  else Throw "Unexpected token in JSON".

(** A store that holds one response, with its message and the array of its
    two tool calls. *)
Definition store : Store.Store :=
  <[0 := Store.ResponseObject (set_message 1 (response None true))]>
    (<[1 := Store.MessageObject
              {| role := "assistant"; content := ""; tool_calls := Some 2 |}]>
       (<[2 := Store.ArrayObject [call "search" (JString "{}");
                                  call "invented" (JObject [])]]> ∅)).

End Sample.

(** * Properties *)

(** ** Strings *)

Lemma append_nil_l (s : string) : "" +:+ s = s.
Proof. reflexivity. Qed.

Lemma append_cons (c : Ascii.ascii) (s t : string) :
  String c s +:+ t = String c (s +:+ t).
Proof. reflexivity. Qed.

Lemma append_nil_r (s : string) : s +:+ "" = s.
Proof. induction s as [|c s IH]; [done|]. by rewrite append_cons, IH. Qed.

Lemma append_assoc (s t u : string) : (s +:+ t) +:+ u = s +:+ t +:+ u.
Proof. induction s as [|c s IH]; [done|]. by rewrite !append_cons, IH. Qed.

Lemma prefix_nil (s : string) : String.prefix "" s = true.
Proof. by destruct s. Qed.

Lemma prefix_true_iff (sub s : string) :
  String.prefix sub s = true <-> exists post, s = sub +:+ post.
Proof.
  revert s. induction sub as [|c sub IH]; intros s.
  - rewrite prefix_nil. split; [intros _; by exists s | done].
  - destruct s as [|d s]; simpl.
    + split; [done | intros [post H]; discriminate].
    + destruct (Ascii.ascii_dec c d) as [->|Hne].
      * rewrite IH. split; intros [post H]; exists post.
        -- by rewrite append_cons, H.
        -- rewrite append_cons in H. congruence.
      * split; [done | intros [post H]; rewrite append_cons in H; congruence].
Qed.

(** [includes] is the substring test. *)
Lemma includes_true_iff (s sub : string) :
  JsString.includes s sub = true <-> exists pre post, s = pre +:+ sub +:+ post.
Proof.
  induction s as [|c s IH].
  - cbn [JsString.includes]. destruct (String.prefix sub "") eqn:E.
    + apply prefix_true_iff in E as [post E]. split; [|done].
      intros _. by exists "", post.
    + split; [done|]. intros [pre [post H]].
      destruct pre as [|d pre]; [|discriminate].
      assert (String.prefix sub "" = true) by (apply prefix_true_iff; eauto).
      congruence.
  - cbn [JsString.includes]. destruct (String.prefix sub (String c s)) eqn:E.
    + apply prefix_true_iff in E as [post E]. split; [|done].
      intros _. by exists "", post.
    + rewrite IH. split.
      * intros [pre [post ->]]. by exists (String c pre), post.
      * intros [pre [post H]]. destruct pre as [|d pre].
        -- assert (String.prefix sub (String c s) = true)
             by (apply prefix_true_iff; eauto).
           congruence.
        -- rewrite append_cons in H. injection H as -> ->. eauto.
Qed.

(** Selecting from the images of a list. *)
Lemma omap_of_images {X Y Z} (pick : Y -> option Z) (image : X -> Y) (xs : list X) :
  omap (fun x => pick (image x)) xs = omap pick (map image xs).
Proof.
  induction xs as [|x xs IH]; [done|].
  change (omap pick (map image (x :: xs)))
    with (match pick (image x) with
          | Some z => z :: omap pick (map image xs)
          | None => omap pick (map image xs)
          end).
  change (omap (fun x => pick (image x)) (x :: xs))
    with (match pick (image x) with
          | Some z => z :: omap (fun x => pick (image x)) xs
          | None => omap (fun x => pick (image x)) xs
          end).
  by rewrite IH.
Qed.

Lemma own_property_eqb (key : string) table c :
  own_property key table = Some c -> (key, c) ∈ table.
Proof.
  induction table as [|[k c'] rest IH]; simpl; [done|].
  destruct (String.eqb k key) eqn:E.
  - apply String.eqb_eq in E as ->. intros [= ->]. left.
  - intros H. right. auto.
Qed.

(** ** C2 and C5: the capability lookup *)

Import Specified.

(** When neither the id nor its normalization names an inherited member,
    the lookup returns a capability record of the table or the default. *)
Lemma getModelCapabilities_entry (modelName : string) :
  inherited modelName = false ->
  inherited (normalizeModelName modelName) = false ->
  exists c, getModelCapabilities modelName = Entry c /\
            (c = DEFAULT_MODEL_CAPABILITIES \/ exists k, (k, c) ∈ MODEL_CAPABILITIES).
Proof.
  intros H1 H2. unfold getModelCapabilities, index. rewrite H1, H2.
  destruct (own_property modelName _) as [c|] eqn:E1.
  { exists c. split; [done|]. right. exists modelName. by apply own_property_eqb. }
  destruct (own_property (normalizeModelName modelName) _) as [c|] eqn:E2.
  { exists c. split; [done|]. right. eexists. by apply own_property_eqb. }
  destruct (partial_match _ _ _) as [c|] eqn:E3; [|eauto].
  exists c. split; [done|]. right.
  revert E3. generalize MODEL_CAPABILITIES.
  induction l as [|[k c'] rest IH]; simpl; [done|].
  destruct (_ || _).
  - intros [= ->]. exists k. left.
  - intros H. destruct (IH H) as [k' Hk']. exists k'. by right.
Qed.

(** C2, at the id ["constructor"]: the id matches no entry of the table,
    by itself, normalized or by containment, and yet the lookup does not
    return the default: it returns the member that the table object inherits
    under that name, on which [supportsTools] and [maxTools] are undefined. *)
Theorem getModelCapabilities_constructor :
  own_property "constructor" MODEL_CAPABILITIES = None /\
  own_property (normalizeModelName "constructor") MODEL_CAPABILITIES = None /\
  partial_match "constructor" (normalizeModelName "constructor") MODEL_CAPABILITIES = None /\
  getModelCapabilities "constructor" = Inherited "constructor" /\
  getModelCapabilities "constructor" <> Entry DEFAULT_MODEL_CAPABILITIES /\
  read supportsTools (getModelCapabilities "constructor") = None /\
  read maxTools (getModelCapabilities "constructor") = None.
Proof. repeat split; try reflexivity. discriminate. Qed.

(** The unknown family of the specification's scenario gets the default. *)
Example getModelCapabilities_foo_bar :
  getModelCapabilities "foo-bar:9b" = Entry DEFAULT_MODEL_CAPABILITIES /\
  supportsTools DEFAULT_MODEL_CAPABILITIES = false /\
  maxTools DEFAULT_MODEL_CAPABILITIES = 0.
Proof. done. Qed.

Example getModelCapabilities_mistral :
  exists c, getModelCapabilities "mistral:latest" = Entry c /\
            toolFormat c = openai /\ maxTools c = 128 /\ supportsParallel c = true.
Proof. eexists. split; [reflexivity|done]. Qed.

Lemma partial_match_first modelName normalizedName before k c after :
  Forall (no_partial_match modelName normalizedName) before ->
  JsString.includes modelName k = true \/ JsString.includes k normalizedName = true ->
  partial_match modelName normalizedName (before ++ (k, c) :: after) = Some c.
Proof.
  intros Hbefore Hk. induction Hbefore as [|[k' c'] before [H1 H2] _ IH]; simpl.
  - destruct Hk as [-> | ->]; by rewrite ?orb_true_r.
  - simpl in H1, H2. by rewrite H1, H2.
Qed.

Lemma partial_match_none modelName normalizedName entries :
  Forall (no_partial_match modelName normalizedName) entries ->
  partial_match modelName normalizedName entries = None.
Proof.
  induction 1 as [|[k c] entries [H1 H2] _ IH]; simpl; [done|].
  simpl in H1, H2. by rewrite H1, H2.
Qed.

(** C5, as the specification words it, fails on a tag of a registered
    model: the raw id contains the key ["qwen2.5-coder:32b"], which the
    normalized id, having no colon, cannot contain. *)
Lemma family_match_is_on_raw_id :
  getModelCapabilities "qwen2.5-coder:32b-instruct-q4_K_M"
    = Entry (qwen_coder 64 true
               (Some {| recommendedContextSize := Some 32768%Z;
                        requiresExplicitToolChoice := Some false;
                        specialTokens := Some ["<tool_call>"; "</tool_call>"] |})) /\
  getModelCapabilities_specified "qwen2.5-coder:32b-instruct-q4_K_M"
    = DEFAULT_MODEL_CAPABILITIES /\
  getModelCapabilities "qwen2.5-coder:32b-instruct-q4_K_M"
    <> Entry (getModelCapabilities_specified "qwen2.5-coder:32b-instruct-q4_K_M").
Proof. split; [reflexivity|]. split; [reflexivity|]. vm_compute. discriminate. Qed.

(** In the other direction the specified test finds a family that the code
    does not: the code looks for the key in the id as given, capitals
    included. *)
Example family_match_is_case_sensitive :
  getModelCapabilities "Codestral-x" = Entry DEFAULT_MODEL_CAPABILITIES /\
  own_property "codestral" MODEL_CAPABILITIES
    = Some (getModelCapabilities_specified "Codestral-x").
Proof. done. Qed.

Example normalizeModelName_examples :
  normalizeModelName "Qwen2.5-Coder:32B" = "qwen2.5-coder" /\
  normalizeModelName "llama3.1@latest" = "llama3.1" /\
  normalizeModelName "deepseek-chat" = "deepseek" /\
  normalizeModelName "mistral:7b-instruct" = "mistral-7b" /\
  normalizeModelName "phi-3m" = "phi".
Proof. done. Qed.

(** C5, amended: the lookup tries, in this order, the id as given, the
    normalized id, then the entries of the table in their order, taking the
    first whose key is contained in the id as given or contains the
    normalized id, and falls back to the default.  The ids that name a
    member inherited by the table object are left aside. *)
Theorem getModelCapabilities_order (modelName : string) :
  inherited modelName = false ->
  inherited (normalizeModelName modelName) = false ->
  (forall c, own_property modelName MODEL_CAPABILITIES = Some c ->
     getModelCapabilities modelName = Entry c) /\
  (own_property modelName MODEL_CAPABILITIES = None ->
   forall c, own_property (normalizeModelName modelName) MODEL_CAPABILITIES = Some c ->
     getModelCapabilities modelName = Entry c) /\
  (own_property modelName MODEL_CAPABILITIES = None ->
   own_property (normalizeModelName modelName) MODEL_CAPABILITIES = None ->
   forall before k c after,
     MODEL_CAPABILITIES = before ++ (k, c) :: after ->
     Forall (no_partial_match modelName (normalizeModelName modelName)) before ->
     JsString.includes modelName k = true
       \/ JsString.includes k (normalizeModelName modelName) = true ->
     getModelCapabilities modelName = Entry c) /\
  (own_property modelName MODEL_CAPABILITIES = None ->
   own_property (normalizeModelName modelName) MODEL_CAPABILITIES = None ->
   Forall (no_partial_match modelName (normalizeModelName modelName))
          MODEL_CAPABILITIES ->
   getModelCapabilities modelName = Entry DEFAULT_MODEL_CAPABILITIES).
Proof.
  intros H1 H2. unfold getModelCapabilities, index. rewrite H1, H2.
  repeat split.
  - by intros c ->.
  - by intros -> c ->.
  - intros -> -> before k c after -> Hbefore Hk.
    by rewrite (partial_match_first _ _ _ _ c after Hbefore Hk).
  - intros -> -> Hall. by rewrite (partial_match_none _ _ _ Hall).
Qed.

Lemma getModelCapabilities_order_witness :
  getModelCapabilities "Mistral-Nemo:12b"
    = Entry (openai_model 64 true false standard excellent None None).
Proof.
  destruct (getModelCapabilities_order "Mistral-Nemo:12b" eq_refl eq_refl)
    as (_ & Hnormalized & _).
  apply Hnormalized; reflexivity.
Defined.

(** ** C1: only registered tools are called *)

Section Validator.

Import OllamaResponseTranslator.

Variable JSON_parse : string -> result JsonValue.

Lemma findRegisteredTool_registered toolName registeredTools :
  findRegisteredTool toolName registeredTools <> None <->
  registered toolName registeredTools.
Proof.
  induction registeredTools as [|tool rest IH]; simpl.
  - split; [done|]. intros (tool & ? & ? & Hin & _). by apply elem_of_nil in Hin.
  - assert (Hrest : registered toolName rest -> registered toolName (tool :: rest)).
    { intros (t & decls & func & Hin & ?). exists t, decls, func. split; [by right|done]. }
    destruct (functionDeclarations tool) as [decls|] eqn:Edecls.
    + destruct (existsb (declares toolName) decls) eqn:Eex.
      * split; [|done]. intros _.
        apply existsb_exists in Eex as (func & Hin & Hname).
        exists tool, decls, func. split; [left|]. split; [done|].
        split; [by apply list_elem_of_In|].
        unfold declares in Hname. destruct (fd_name func) as [n|]; [|done].
        by apply String.eqb_eq in Hname as ->.
      * rewrite IH. split; [done|].
        intros (t & decls' & func & Hin & Hdecls & Hfunc & Hname).
        apply elem_of_cons in Hin as [->|Hin].
        -- rewrite Edecls in Hdecls. injection Hdecls as <-.
           assert (existsb (declares toolName) decls = true); [|congruence].
           apply existsb_exists. exists func. split; [by apply list_elem_of_In|].
           unfold declares. rewrite Hname. apply String.eqb_refl.
        -- by exists t, decls', func.
    + rewrite IH. split; [done|].
      intros (t & decls' & func & Hin & Hdecls & Hfunc & Hname).
      apply elem_of_cons in Hin as [->|Hin]; [congruence|].
      by exists t, decls', func.
Qed.

Lemma isValidToolCall_true call capabilities registeredTools e e' :
  isValidToolCall JSON_parse call capabilities registeredTools e = (true, e') ->
  findRegisteredTool (call_name call) registeredTools <> None.
Proof.
  unfold isValidToolCall.
  destruct (findRegisteredTool _ _); [done|]. intros [=].
Qed.

Lemma filter_valid_kept calls capabilities registeredTools e :
  forall call,
    call ∈ (filter_valid JSON_parse calls capabilities registeredTools e).1 ->
    call ∈ calls /\ findRegisteredTool (call_name call) registeredTools <> None.
Proof.
  revert e. induction calls as [|c rest IH]; intros e call; simpl.
  - intros H. by apply elem_of_nil in H.
  - destruct (isValidToolCall _ c _ _ e) as [ok e1] eqn:Evalid.
    specialize (IH e1 call).
    destruct (filter_valid _ rest _ _ e1) as [kept e2]. simpl in *.
    destruct ok.
    + intros [->|Hin]%elem_of_cons.
      * split; [left|]. by eapply isValidToolCall_true.
      * destruct (IH Hin). split; [by right|done].
    + intros Hin. destruct (IH Hin). split; [by right|done].
Qed.

(** The counter of unknown tools grows by one for each call whose name is
    not found, and by nothing else. *)
Lemma isValidToolCall_unknown call capabilities registeredTools e :
  unknownToolCalls (stats (isValidToolCall JSON_parse call capabilities registeredTools e).2)
  = unknownToolCalls (stats e)
    + match findRegisteredTool (call_name call) registeredTools with
      | Some _ => 0
      | None => 1
      end.
Proof.
  unfold isValidToolCall.
  destruct (findRegisteredTool _ _); simpl; [|lia].
  unfold validateToolCallArguments.
  destruct (arguments_error _ _); simpl; [lia|].
  unfold validateForModelSpecificRequirements.
  repeat (destruct (_ && _); simpl; [lia|]). lia.
Qed.

Lemma filter_valid_unknown calls capabilities registeredTools e :
  unknownToolCalls (stats (filter_valid JSON_parse calls capabilities registeredTools e).2)
  = unknownToolCalls (stats e) + length (unknown_calls registeredTools calls).
Proof.
  revert e. induction calls as [|c rest IH]; intros e; simpl; [lia|].
  pose proof (isValidToolCall_unknown c capabilities registeredTools e) as Hc.
  destruct (isValidToolCall _ c _ _ e) as [ok e1]. simpl in Hc.
  specialize (IH e1).
  destruct (filter_valid _ rest _ _ e1) as [kept e2]. simpl in *.
  rewrite IH, Hc. unfold unknown_calls. rewrite filter_cons.
  destruct (findRegisteredTool (call_name c) registeredTools) eqn:E.
  - rewrite decide_False by done. lia.
  - rewrite decide_True by done. simpl. lia.
Qed.

Lemma calls_in_parts_app ps qs :
  calls_in_parts (ps ++ qs) = calls_in_parts ps ++ calls_in_parts qs.
Proof. apply omap_app. Qed.

Lemma calls_in_parts_function_calls fcs :
  calls_in_parts (map FunctionCallPart fcs) = fcs.
Proof. induction fcs as [|fc fcs IH]; simpl; [done|]. by rewrite IH. Qed.

(** The function calls of the converted response are the conversions of the
    tool calls of the response handed to [convertToGeminiFormat]. *)
Lemma convertToGeminiFormat_calls (response : OllamaChatResponse) capabilities e :
  function_calls (convertToGeminiFormat JSON_parse response capabilities e).1
  = omap (fun call => (convertToolCallToFunctionCall JSON_parse call capabilities).1)
         (calls_of response).
Proof.
  unfold convertToGeminiFormat, function_calls, calls_of. simpl.
  set (converted := omap fst _).
  assert (Hconv : converted
                  = omap (fun call => (convertToolCallToFunctionCall JSON_parse call capabilities).1)
                         (or_default [] (tool_calls (message response)))).
  { symmetry. apply omap_of_images. }
  rewrite <- Hconv.
  assert (Htext : calls_in_parts (text_parts response) = []).
  { unfold text_parts. by destruct (_ && _). }
  destruct (text_parts response ++ map FunctionCallPart converted) as [|p ps] eqn:E.
  - apply app_eq_nil in E as [_ E]. by destruct converted.
  - rewrite <- E, calls_in_parts_app, Htext, calls_in_parts_function_calls. done.
Qed.

Lemma convertToolCallToFunctionCall_name call capabilities fc :
  (convertToolCallToFunctionCall JSON_parse call capabilities).1 = Some fc ->
  name fc = call_name call.
Proof.
  unfold convertToolCallToFunctionCall.
  destruct (call_arguments call) as [[]|]; simpl; try by intros [= <-].
  destruct (JSON_parse s); simpl; [by intros [= <-]|done].
Qed.

Lemma convertToGeminiFormat_stats (response : OllamaChatResponse) capabilities e :
  stats (convertToGeminiFormat JSON_parse response capabilities e).2 = stats e.
Proof. done. Qed.

Lemma hallucination_report_unknown modelName e :
  unknownToolCalls (stats (hallucination_report modelName e)) = unknownToolCalls (stats e).
Proof. unfold hallucination_report. by destruct (Nat.ltb _ _). Qed.

Lemma validateAndTranslateResponse_eq (response : OllamaChatResponse)
    modelName registeredTools :
  validateAndTranslateResponse JSON_parse response modelName registeredTools
  = let capabilities := getModelCapabilities modelName in
    match tool_calls (message response) with
    | Some calls =>
        let fv :=
          filter_valid JSON_parse calls capabilities registeredTools
            (effects_after_lookup modelName) in
        convertToGeminiFormat JSON_parse (with_tool_calls fv.1 response) capabilities
          (hallucination_report modelName
             (update_stats (set_totals (length calls) (length fv.1)) fv.2))
    | None =>
        convertToGeminiFormat JSON_parse response capabilities
          (effects_after_lookup modelName)
    end.
Proof.
  unfold validateAndTranslateResponse.
  destruct (tool_calls (message response)) as [calls|]; [|done].
  by destruct (filter_valid _ _ _ _ _).
Qed.

(** C1: every function call of the translated response bears the name of a
    function declaration of a registered tool, and the tool calls of the
    backend whose name is not registered are counted in
    [unknownToolCalls]; so with no registered tool nothing is emitted. *)
Theorem emitted_calls_are_registered (response : OllamaChatResponse)
    (modelName : string) (registeredTools : list Tool) :
  let out := validateAndTranslateResponse JSON_parse response modelName registeredTools in
  (forall fc, fc ∈ function_calls out.1 ->
     registered (name fc) registeredTools /\
     exists call, call ∈ calls_of response /\ call_name call = name fc) /\
  unknownToolCalls (stats out.2)
    = length (unknown_calls registeredTools (calls_of response)) /\
  (forall call, call ∈ unknown_calls registeredTools (calls_of response) ->
     ~ registered (call_name call) registeredTools /\
     forall fc, fc ∈ function_calls out.1 -> name fc <> call_name call) /\
  (registeredTools = [] -> function_calls out.1 = []).
Proof.
  set (out := validateAndTranslateResponse _ _ _ _).
  assert (Hemitted : forall fc, fc ∈ function_calls out.1 ->
       findRegisteredTool (name fc) registeredTools <> None /\
       exists call, call ∈ calls_of response /\ call_name call = name fc).
  { intros fc. unfold out. rewrite validateAndTranslateResponse_eq. cbv zeta.
    unfold calls_of.
    destruct (tool_calls (message response)) as [calls|] eqn:Ecalls.
    - rewrite convertToGeminiFormat_calls.
      intros (call & Hcall & Hconv)%list_elem_of_omap.
      apply convertToolCallToFunctionCall_name in Hconv.
      apply filter_valid_kept in Hcall as [Hin Hreg]. rewrite Hconv. eauto.
    - rewrite convertToGeminiFormat_calls. unfold calls_of. rewrite Ecalls.
      by intros ?%elem_of_nil. }
  assert (Hcount : unknownToolCalls (stats out.2)
                   = length (unknown_calls registeredTools (calls_of response))).
  { unfold out. rewrite validateAndTranslateResponse_eq. cbv zeta. unfold calls_of.
    destruct (tool_calls (message response)) as [calls|]; [|done].
    rewrite convertToGeminiFormat_stats, hallucination_report_unknown.
    cbn [or_default update_stats stats set_totals unknownToolCalls].
    by rewrite filter_valid_unknown. }
  cbv zeta. split; [|split; [done|split]].
  - intros fc Hfc. destruct (Hemitted fc Hfc) as [Hreg Hcall].
    split; [by apply findRegisteredTool_registered|done].
  - intros call [Hnone _]%list_elem_of_filter. split.
    + rewrite <- findRegisteredTool_registered, Hnone. intros H. by apply H.
    + intros fc Hfc Hname. destruct (Hemitted fc Hfc) as [Hreg _]. congruence.
  - intros Hempty. destruct (function_calls out.1) as [|fc fcs] eqn:E; [done|].
    destruct (Hemitted fc (list_elem_of_here fc fcs)) as [Hreg _].
    rewrite Hempty in Hreg. by destruct Hreg.
Qed.

(** Whether a call is kept does not depend on what was written before. *)
Lemma isValidToolCall_verdict call capabilities registeredTools e e' :
  (isValidToolCall JSON_parse call capabilities registeredTools e).1
  = (isValidToolCall JSON_parse call capabilities registeredTools e').1.
Proof.
  unfold isValidToolCall.
  destruct (findRegisteredTool _ _); [|done].
  unfold validateToolCallArguments.
  destruct (arguments_error _ _); [done|].
  unfold validateForModelSpecificRequirements.
  by repeat destruct (_ && _).
Qed.

Lemma filter_valid_keeps calls capabilities registeredTools e call :
  call ∈ calls ->
  (isValidToolCall JSON_parse call capabilities registeredTools initial_effects).1 = true ->
  call ∈ (filter_valid JSON_parse calls capabilities registeredTools e).1.
Proof.
  intros Hin Hvalid. revert e.
  induction calls as [|c rest IH]; intros e; [by apply elem_of_nil in Hin|].
  cbn [filter_valid].
  pose proof (isValidToolCall_verdict c capabilities registeredTools e initial_effects) as Hc.
  destruct (isValidToolCall _ c _ _ e) as [ok e1]. simpl in Hc.
  specialize (fun H => IH H e1) as IH1.
  destruct (filter_valid _ rest _ _ e1) as [kept e2]. simpl in *.
  apply elem_of_cons in Hin as [->|Hin].
  - rewrite Hc, Hvalid. left.
  - destruct ok; [right|]; by apply IH1.
Qed.

Lemma structured_arguments_valid arguments v :
  structured_arguments JSON_parse arguments v ->
  arguments_error JSON_parse arguments = None.
Proof.
  intros [(s & -> & Hs) | [-> Hobj]]; simpl.
  - by rewrite Hs.
  - by destruct v.
Qed.

(** C4, amended: a call with a registered name and structured arguments is
    emitted under its name, unless a heuristic of the dialect rejects the
    name; the arguments emitted are the structure, from which the
    [qwen3coder] parser first removes a wrapper. *)
Theorem registered_structured_call_is_emitted (response : OllamaChatResponse)
    (modelName : string) (registeredTools : list Tool)
    (call : OllamaToolCall) (v : JsonValue) :
  let capabilities := getModelCapabilities modelName in
  call ∈ calls_of response ->
  registered (call_name call) registeredTools ->
  structured_arguments JSON_parse (call_arguments call) v ->
  (customParser_is "qwen3coder" capabilities = true ->
   qwen_formatting (call_name call) = false) ->
  (multiTurn_is_poor capabilities = true ->
   follow_up_name (call_name call) = false) ->
  {| name := call_name call;
     args := if customParser_is "qwen3coder" capabilities
             then processQwenCoderArguments (Some v)
             else Some v |}
  ∈ function_calls
      (validateAndTranslateResponse JSON_parse response modelName registeredTools).1.
Proof.
  intros capabilities Hin Hreg Hargs Hqwen Hpoor.
  rewrite validateAndTranslateResponse_eq. cbv zeta. fold capabilities.
  unfold calls_of in Hin.
  destruct (tool_calls (message response)) as [calls|] eqn:Ecalls;
    [|by apply elem_of_nil in Hin].
  simpl in Hin. rewrite convertToGeminiFormat_calls.
  apply list_elem_of_omap. exists call. split.
  - unfold calls_of. simpl. apply filter_valid_keeps; [done|].
    unfold isValidToolCall.
    apply findRegisteredTool_registered in Hreg.
    destruct (findRegisteredTool _ _); [|done].
    unfold validateToolCallArguments.
    rewrite (structured_arguments_valid _ _ Hargs).
    unfold validateForModelSpecificRequirements. fold capabilities.
    destruct (customParser_is "qwen3coder" capabilities).
    + rewrite Hqwen by done. simpl.
      destruct (multiTurn_is_poor capabilities); [by rewrite Hpoor|done].
    + simpl. destruct (multiTurn_is_poor capabilities); [by rewrite Hpoor|done].
  - unfold convertToolCallToFunctionCall. fold capabilities.
    destruct Hargs as [(s & -> & Hs) | [-> Hobj]].
    + by rewrite Hs.
    + by destruct v.
Qed.

End Validator.

(** C4, as stated, fails: for a model with poor multi-turn support a
    registered tool whose name contains "next" is dropped, although its
    arguments are an object. *)
Lemma registered_call_dropped_by_heuristic :
  registered "next_page" [Sample.tool "next_page"] /\
  structured_arguments Sample.parse (Some (JObject [])) (JObject []) /\
  Sample.call "next_page" (JObject [])
    ∈ calls_of (Sample.response (Some [Sample.call "next_page" (JObject [])]) true) /\
  function_calls
    (OllamaResponseTranslator.validateAndTranslateResponse Sample.parse
       (Sample.response (Some [Sample.call "next_page" (JObject [])]) true)
       "deepseek-chat" [Sample.tool "next_page"]).1 = [].
Proof.
  split; [|split; [|split]].
  - exists (Sample.tool "next_page"), [Sample.declaration "next_page"],
      (Sample.declaration "next_page").
    repeat split; by left.
  - right. done.
  - left.
  - reflexivity.
Qed.

(** The arguments emitted are not always those received: the [qwen3coder]
    parser unwraps a [parameters] member. *)
Example qwen_unwraps_parameters :
  function_calls
    (OllamaResponseTranslator.validateAndTranslateResponse Sample.parse
       (Sample.response
          (Some [Sample.call "search"
                   (JObject [("parameters", JObject [("q", JString "x")])])]) true)
       "qwen2.5-coder:7b" [Sample.tool "search"]).1
  = [{| name := "search"; args := Some (JObject [("q", JString "x")]) |}].
Proof. reflexivity. Qed.

Lemma registered_structured_call_is_emitted_witness :
  {| name := "search"; args := Some (JObject []) |}
  ∈ function_calls
      (OllamaResponseTranslator.validateAndTranslateResponse Sample.parse
         (Sample.response (Some [Sample.call "search" (JString "{}")]) true)
         "mistral:latest" [Sample.tool "search"]).1.
Proof.
  apply (registered_structured_call_is_emitted Sample.parse
           (Sample.response (Some [Sample.call "search" (JString "{}")]) true)
           "mistral:latest" [Sample.tool "search"]
           (Sample.call "search" (JString "{}")) (JObject [])).
  - left.
  - exists (Sample.tool "search"), [Sample.declaration "search"],
      (Sample.declaration "search").
    repeat split; by left.
  - left. by exists "{}".
  - discriminate.
  - discriminate.
Defined.

(** The scenarios of the specification: an unregistered call with no
    registered tool, and arguments that are not JSON. *)
Example unregistered_call_is_counted :
  let out := OllamaResponseTranslator.validateAndTranslateResponse Sample.parse
               (Sample.response (Some [Sample.call "unregistered_fn" (JString "{}")]) true)
               "mistral:latest" [] in
  function_calls out.1 = [] /\
  OllamaResponseTranslator.unknownToolCalls (OllamaResponseTranslator.stats out.2) = 1.
Proof. done. Qed.

Example malformed_arguments_are_counted :
  let out := OllamaResponseTranslator.validateAndTranslateResponse Sample.parse
               (Sample.response (Some [Sample.call "search" (JString "not-json")]) true)
               "mistral:latest" [Sample.tool "search"] in
  function_calls out.1 = [] /\
  OllamaResponseTranslator.invalidJsonCalls (OllamaResponseTranslator.stats out.2) = 1.
Proof. done. Qed.

(** ** C3 and C10: the tool translator *)

Section Translator.

Import OllamaToolTranslator.

Variable JSON_stringify : Tool -> string.

Lemma omap_length_le {A B} (f : A -> option B) (l : list A) :
  length (omap f l) <= length l.
Proof.
  induction l as [|a l IH]; [done|].
  change (omap f (a :: l))
    with (match f a with Some y => y :: omap f l | None => omap f l end).
  destruct (f a); simpl; lia.
Qed.

(** The lookup of a model that supports tools writes nothing: the warning
    goes with the default, which does not support them. *)
Lemma lookup_console_supported (modelName : string) (c : ModelToolCapabilities) :
  getModelCapabilities modelName = Entry c -> supportsTools c = true ->
  lookup_console modelName = [].
Proof.
  unfold lookup_console, unknown_model_warning, getModelCapabilities. cbv zeta.
  destruct (index modelName); [done|].
  destruct (index (normalizeModelName modelName)); [done|].
  destruct (partial_match _ _ _); [done|].
  by intros [= <-].
Qed.

(** The translation, for a model whose lookup gives a capability record. *)
Lemma translateGeminiToolsToOllama_entry tools modelName c :
  getModelCapabilities modelName = Entry c ->
  translateGeminiToolsToOllama tools modelName
  = if supportsTools c
    then omap (fun tool => (convertSingleTool tool (Entry c)).1) (take (maxTools c) tools)
    else [].
Proof.
  intros Hc. unfold translateGeminiToolsToOllama, translate_with_console.
  rewrite Hc. unfold truthy_supportsTools, slice_to_maxTools. simpl.
  destruct (supportsTools c); [|done]. simpl.
  case_bool_decide as Hlen; simpl.
  - apply length_zero_iff_nil in Hlen as ->. by destruct (maxTools c).
  - symmetry. apply omap_of_images.
Qed.

Lemma truncation_warning_not_missing modelName max got tool :
  truncation_warning modelName max got <> missing_declarations_warning JSON_stringify tool.
Proof. discriminate. Qed.

(** C3, amended: for a model whose lookup gives a capability record the
    translated list is no longer than [maxTools] and is made from the first
    [maxTools] tools, in their order, those without a function declaration
    being dropped; when the model supports tools, a list longer than
    [maxTools] gets exactly one warning of truncation, which names the limit
    and the number of tools offered.  For a model that does not support
    tools the translation is empty and the only warning says so. *)
Theorem translation_respects_maxTools (tools : list Tool) (modelName : string) :
  (forall c : ModelToolCapabilities,
     getModelCapabilities modelName = Entry c ->
     length (translateGeminiToolsToOllama tools modelName) <= maxTools c /\
     translateGeminiToolsToOllama tools modelName
       = translateGeminiToolsToOllama (take (maxTools c) tools) modelName /\
     (supportsTools c = true ->
      translateGeminiToolsToOllama tools modelName
        = omap (fun tool => (convertSingleTool tool (Entry c)).1)
               (take (maxTools c) tools) /\
      (forall tool,
         (convertSingleTool tool (Entry c)).1 = None <-> has_declarations tool = false)) /\
     (supportsTools c = true -> maxTools c < length tools ->
      exists rest,
        warnings (validateToolsForModel JSON_stringify tools modelName)
          = truncation_warning modelName (maxTools c) (length tools) :: rest /\
        truncation_warning modelName (maxTools c) (length tools) ∉ rest)) /\
  (modelSupportsTools modelName = false ->
   translateGeminiToolsToOllama tools modelName = [] /\
   warnings (validateToolsForModel JSON_stringify tools modelName)
   = [unsupported_warning modelName]).
Proof.
  split.
  - intros c Hc. rewrite !(translateGeminiToolsToOllama_entry _ _ _ Hc).
    split; [|split; [|split]].
    + destruct (supportsTools c); simpl; [|lia].
      etrans; [apply omap_length_le|]. rewrite length_take. lia.
    + by rewrite take_idemp.
    + intros ->. split; [done|]. intros tool.
      unfold convertSingleTool, has_declarations.
      by destruct (functionDeclarations tool) as [[|first others]|].
    + intros Hsupports Hlong. unfold validateToolsForModel, exceeded_limit.
      rewrite Hc. unfold truthy_supportsTools. simpl. rewrite Hsupports. simpl.
      apply Nat.ltb_lt in Hlong as ->. simpl. eexists. split; [done|].
      intros (tool & Heq & _)%list_elem_of_In%in_map_iff.
      by eapply truncation_warning_not_missing.
  - unfold modelSupportsTools. intros Hno.
    unfold translateGeminiToolsToOllama, translate_with_console, validateToolsForModel.
    by rewrite Hno.
Qed.

(** C10: of a tool that declares two functions or more only the first is
    converted; nothing is written to the console, the validation of the
    tools lists the tool as valid without a warning, and the tool yields one
    tool of the dialect. *)
Theorem only_first_declaration_is_converted
    (first second : FunctionDeclaration) (others : list FunctionDeclaration)
    (members : list (string * JsonValue)) (c : ModelToolCapabilities) :
  let tool := {| functionDeclarations := Some (first :: second :: others);
                 other_members := members |} in
  let single := {| functionDeclarations := Some [first]; other_members := members |} in
  convertSingleTool tool (Entry c) = ((convertSingleTool single (Entry c)).1, []) /\
  (exists converted, (convertSingleTool tool (Entry c)).1 = Some converted) /\
  (forall tools modelName,
     tool ∈ tools ->
     truthy_supportsTools (getModelCapabilities modelName) = true ->
     let validation := validateToolsForModel JSON_stringify tools modelName in
     tool ∈ valid validation /\ tool ∉ invalid validation) /\
  (forall modelName,
     getModelCapabilities modelName = Entry c ->
     supportsTools c = true -> 0 < maxTools c ->
     (exists converted,
        translate_with_console [tool] modelName = ([converted], []) /\
        (convertSingleTool single (Entry c)).1 = Some converted) /\
     warnings (validateToolsForModel JSON_stringify [tool] modelName) = []).
Proof.
  cbv zeta. split; [done|]. split; [by eexists|]. split.
  - intros tools modelName Hin Hsupports.
    unfold validateToolsForModel. rewrite Hsupports. simpl.
    rewrite !list_elem_of_filter. split; [done|]. by intros [? _].
  - intros modelName Hc Hsupports Hmax. split.
    + eexists. split; [|done].
      unfold translate_with_console.
      rewrite (lookup_console_supported _ _ Hc Hsupports), Hc.
      unfold truthy_supportsTools, slice_to_maxTools. simpl. rewrite Hsupports. simpl.
      rewrite take_ge by (simpl; lia). done.
    + unfold validateToolsForModel. rewrite Hc.
      unfold truthy_supportsTools. simpl. rewrite Hsupports. simpl.
      unfold exceeded_limit. simpl.
      destruct (maxTools c) as [|n]; [lia|]. done.
Qed.

End Translator.

(** C3, as stated, fails in two ways.  For a model without tool support
    the limit is 0, any tool exceeds it, and the only warning is that the
    model does not support tools: there is no warning of truncation.  And of
    seventeen tools offered to a model that takes sixteen, the first of them
    without a function declaration, fifteen are translated, not the first
    sixteen; the warning of truncation names the limit and the number
    offered. *)
Lemma truncation_is_not_as_claimed :
  (getModelCapabilities "foo-bar:9b" = Entry DEFAULT_MODEL_CAPABILITIES /\
   maxTools DEFAULT_MODEL_CAPABILITIES < length [Sample.tool "search"] /\
   OllamaToolTranslator.warnings
     (OllamaToolTranslator.validateToolsForModel Sample.stringify
        [Sample.tool "search"] "foo-bar:9b")
   = ["Model foo-bar:9b does not support tool calling"] /\
   OllamaToolTranslator.truncation_warning "foo-bar:9b" 0 1
   ∉ OllamaToolTranslator.warnings
       (OllamaToolTranslator.validateToolsForModel Sample.stringify
          [Sample.tool "search"] "foo-bar:9b")) /\
  (let offered :=
     {| functionDeclarations := None; other_members := [] |}
       :: replicate 16 (Sample.tool "search") in
   getModelCapabilities "llama3.2:latest"
   = Entry (openai_model 16 false true standard good None None) /\
   length offered = 17 /\
   length (OllamaToolTranslator.translateGeminiToolsToOllama offered "llama3.2:latest")
   = 15 /\
   OllamaToolTranslator.warnings
     (OllamaToolTranslator.validateToolsForModel Sample.stringify offered
        "llama3.2:latest")
   = ["Model llama3.2:latest supports max 16 tools, got 17. Truncating.";
      "Tool missing valid functionDeclarations: {}"]).
Proof.
  split.
  - split; [done|]. split; [simpl; lia|]. split; [done|].
    intros [=]%list_elem_of_singleton.
  - by vm_compute.
Qed.

(** The lookup of an unknown model is told on the console. *)
Example translation_for_unknown_model :
  OllamaToolTranslator.translate_with_console [Sample.tool "search"] "foo-bar:9b"
  = ([], [[CText "Unknown model: foo-bar:9b. Tool calling disabled."]]).
Proof. reflexivity. Qed.

Lemma translation_respects_maxTools_witness :
  length (OllamaToolTranslator.translateGeminiToolsToOllama
            (replicate 17 (Sample.tool "search")) "llama3.2:latest") <= 16 /\
  (exists rest,
     OllamaToolTranslator.warnings
       (OllamaToolTranslator.validateToolsForModel Sample.stringify
          (replicate 17 (Sample.tool "search")) "llama3.2:latest")
     = "Model llama3.2:latest supports max 16 tools, got 17. Truncating." :: rest) /\
  OllamaToolTranslator.translateGeminiToolsToOllama
    (replicate 17 (Sample.tool "search")) "llama2" = [].
Proof.
  destruct (translation_respects_maxTools Sample.stringify
              (replicate 17 (Sample.tool "search")) "llama3.2:latest")
    as [Hentry _].
  destruct (Hentry (openai_model 16 false true standard good None None) eq_refl)
    as (Hlen & _ & _ & Hwarn).
  split; [exact Hlen|]. split.
  - destruct (Hwarn eq_refl) as (rest & Hrest & _); [simpl; lia|].
    exists rest. exact Hrest.
  - destruct (translation_respects_maxTools Sample.stringify
                (replicate 17 (Sample.tool "search")) "llama2")
      as [_ Hunsupported].
    destruct (Hunsupported eq_refl) as [Hempty _]. exact Hempty.
Defined.

Lemma only_first_declaration_is_converted_witness :
  exists converted,
    OllamaToolTranslator.translate_with_console
      [{| functionDeclarations :=
            Some [Sample.declaration "read"; Sample.declaration "write"];
          other_members := [] |}] "codestral"
    = ([converted], []) /\
    ot_name converted = "read".
Proof.
  destruct (only_first_declaration_is_converted Sample.stringify
              (Sample.declaration "read") (Sample.declaration "write") [] []
              (openai_model 32 true false standard good None None))
    as (_ & _ & _ & Htranslate).
  destruct (Htranslate "codestral" eq_refl eq_refl) as [(converted & Heq & Hsingle) _];
    [simpl; lia|].
  exists converted. split; [exact Heq|].
  injection Hsingle as <-. reflexivity.
Defined.

(** ** C6 and C7: the streaming reader *)

Section Streaming.

Import OllamaClient.

Variable JSON_parse : string -> result OllamaChatResponse.

Lemma split_lines_app (a b : string) :
  split_lines (a +:+ b)
  = ((split_lines a).1 ++ (split_lines ((split_lines a).2 +:+ b)).1,
     (split_lines ((split_lines a).2 +:+ b)).2).
Proof.
  induction a as [|c a IH].
  - cbn [split_lines fst snd app]. rewrite !append_nil_l.
    by destruct (split_lines b).
  - rewrite append_cons. cbn [split_lines]. rewrite IH.
    destruct (split_lines a) as [la ra]. cbn [fst snd].
    destruct (OllamaToolTranslator.is_LF c) eqn:E; [done|].
    destruct la as [|line la]; cbn [fst snd app]; [|done].
    rewrite append_cons. cbn [split_lines]. rewrite E.
    destruct (split_lines (ra +:+ b)) as [lb rb]. by destruct lb.
Qed.

(** What is left in the buffer holds no complete line. *)
Lemma split_lines_rest (text : string) :
  (split_lines (split_lines text).2).1 = [].
Proof.
  induction text as [|c text IH]; [done|]. cbn [split_lines].
  destruct (split_lines text) as [lines rest]. cbn [fst snd] in *.
  destruct (OllamaToolTranslator.is_LF c) eqn:E; [done|].
  destruct lines as [|line lines]; cbn [snd]; [|done].
  cbn [split_lines]. rewrite E.
  destruct (split_lines rest) as [l r]. cbn [fst] in IH. by rewrite IH.
Qed.

Lemma process_lines_app (l1 l2 : list string) :
  process_lines JSON_parse (l1 ++ l2)
  = if (process_lines JSON_parse l1).2
    then ((process_lines JSON_parse l1).1, true)
    else ((process_lines JSON_parse l1).1 ++ (process_lines JSON_parse l2).1,
          (process_lines JSON_parse l2).2).
Proof.
  induction l1 as [|line l1 IH]; cbn [app process_lines].
  - by destruct (process_lines JSON_parse l2).
  - destruct (blank line); [done|].
    destruct (JSON_parse line) as [frame|error].
    + destruct (done frame); [done|]. rewrite IH.
      destruct (process_lines JSON_parse l1) as [ev1 []]; cbn [fst snd]; [done|].
      by destruct (process_lines JSON_parse l2).
    + rewrite IH.
      destruct (process_lines JSON_parse l1) as [ev1 []]; cbn [fst snd]; [done|].
      by destruct (process_lines JSON_parse l2).
Qed.

(** The events do not depend on how the body is cut into chunks: they are
    those of the complete lines of the body. *)
Lemma read_loop_lines (chunks : list string) (buffer : string) :
  (split_lines buffer).1 = [] ->
  read_loop JSON_parse buffer chunks
  = (process_lines JSON_parse (split_lines (buffer +:+ body_text chunks)).1).1.
Proof.
  revert buffer. induction chunks as [|value chunks IH]; intros buffer Hbuffer.
  - cbn [read_loop body_text foldr]. by rewrite append_nil_r, Hbuffer.
  - cbn [read_loop body_text foldr]. fold (body_text chunks).
    rewrite <- append_assoc, (split_lines_app (buffer +:+ value)).
    destruct (split_lines (buffer +:+ value)) as [lines rest] eqn:Esplit.
    cbn [fst snd]. rewrite process_lines_app.
    assert (Hrest : (split_lines rest).1 = []).
    { pose proof (split_lines_rest (buffer +:+ value)) as H. by rewrite Esplit in H. }
    rewrite (IH rest Hrest).
    destruct (process_lines JSON_parse lines) as [events []]; by cbn [fst snd].
Qed.

Lemma generateContentStream_lines (chunks : list string) :
  generateContentStream JSON_parse chunks
  = (process_lines JSON_parse (complete_lines chunks)).1 ++ [ReleaseLock].
Proof.
  unfold generateContentStream, complete_lines.
  by rewrite read_loop_lines, append_nil_l.
Qed.

Lemma convertFromOllamaResponse_finishReason (response : OllamaChatResponse) :
  finishReason (convertFromOllamaResponse response)
  = if done response then Some STOP else None.
Proof. done. Qed.


(** With a final frame among the lines, the loop returns on yielding it. *)
Lemma process_lines_finished (lines : list string) :
  existsb (done_frame JSON_parse) lines = true ->
  exists events last,
    process_lines JSON_parse lines = (events ++ [Yield last], true) /\
    finishReason last = Some STOP /\
    Forall (fun r => finishReason r = None) (yielded events).
Proof.
  induction lines as [|line lines IH]; [done|].
  cbn [existsb process_lines]. unfold done_frame at 1.
  destruct (blank line); [done|]. cbn [negb andb].
  destruct (JSON_parse line) as [frame|error]; cbn [orb].
  - destruct (done frame) eqn:Edone.
    + intros _. exists [], (convertFromOllamaResponse frame).
      split; [done|]. split; [|done].
      by rewrite convertFromOllamaResponse_finishReason, Edone.
    + intros (events & last & -> & Hlast & Hall)%IH.
      exists (Yield (convertFromOllamaResponse frame) :: events), last.
      split; [done|]. split; [done|]. apply Forall_cons. split; [|done].
      by rewrite convertFromOllamaResponse_finishReason, Edone.
  - intros (events & last & -> & Hlast & Hall)%IH.
    by exists (ConsoleWarn line error :: events), last.
Qed.

Lemma yielded_app (ev1 ev2 : list StreamEvent) :
  yielded (ev1 ++ ev2) = yielded ev1 ++ yielded ev2.
Proof. apply omap_app. Qed.

(** C6, amended: when a complete line of the body, one that a line feed
    ends, is a frame with [done = true], the generator stops on yielding the
    first such frame: that response is the last one yielded, it has a finish
    reason, and no response yielded before it has one.  A frame with
    [done = false] is converted without a finish reason. *)
Theorem finish_reason_on_last_item_only (chunks : list string) :
  existsb (done_frame JSON_parse) (complete_lines chunks) = true ->
  (exists events last,
     generateContentStream JSON_parse chunks = events ++ [Yield last; ReleaseLock] /\
     yielded (generateContentStream JSON_parse chunks) = yielded events ++ [last] /\
     finishReason last = Some STOP /\
     Forall (fun r => finishReason r = None) (yielded events)) /\
  (forall frame : OllamaChatResponse,
     done frame = false -> finishReason (convertFromOllamaResponse frame) = None).
Proof.
  intros Hdone. split.
  - rewrite generateContentStream_lines.
    destruct (process_lines_finished _ Hdone) as (events & last & -> & Hlast & Hall).
    exists events, last. cbn [fst]. rewrite <- app_assoc. split; [done|].
    split; [|done]. by rewrite yielded_app.
  - intros frame Hframe. by rewrite convertFromOllamaResponse_finishReason, Hframe.
Qed.


End Streaming.

Lemma finish_reason_on_last_item_only_witness :
  exists events last,
    OllamaClient.generateContentStream Sample.parse_frame
      ["{1}" +:+ LF +:+ "{"; "3}" +:+ LF]
    = events ++ [OllamaClient.Yield last; OllamaClient.ReleaseLock] /\
    finishReason last = Some STOP /\
    Forall (fun r => finishReason r = None) (OllamaClient.yielded events).
Proof.
  destruct (finish_reason_on_last_item_only Sample.parse_frame
              ["{1}" +:+ LF +:+ "{"; "3}" +:+ LF] eq_refl)
    as [(events & last & Hevents & _ & Hlast & Hbefore) _].
  exists events, last. split; [exact Hevents|]. split; [exact Hlast|exact Hbefore].
Defined.

Example stream_in_two_chunks :
  OllamaClient.yielded
    (OllamaClient.generateContentStream Sample.parse_frame
       ["{1}" +:+ LF +:+ "{"; "3}" +:+ LF])
  = [OllamaClient.convertFromOllamaResponse (Sample.frame "Hel" false);
     OllamaClient.convertFromOllamaResponse (Sample.frame "lo" true)].
Proof. reflexivity. Qed.

(** C6, as stated, fails when the final frame is not followed by a line
    feed: the frame stays in the buffer, the reader reports the end of the
    body and the loop is left without the frame being parsed.  The one
    response yielded is that of the first frame, and no response carries a
    finish reason, although the final frame of the body has [done = true]. *)
Lemma final_frame_without_line_feed_is_lost :
  OllamaClient.body_text ["{1}" +:+ LF; "{3}"] = "{1}" +:+ LF +:+ "{3}" /\
  Sample.parse_frame "{3}" = Ok (Sample.frame "lo" true) /\
  done (Sample.frame "lo" true) = true /\
  OllamaClient.generateContentStream Sample.parse_frame ["{1}" +:+ LF; "{3}"]
  = [OllamaClient.Yield
       (OllamaClient.convertFromOllamaResponse (Sample.frame "Hel" false));
     OllamaClient.ReleaseLock] /\
  Forall (fun r => finishReason r = None)
    (OllamaClient.yielded
       (OllamaClient.generateContentStream Sample.parse_frame ["{1}" +:+ LF; "{3}"])).
Proof.
  split; [done|]. split; [done|]. split; [done|]. split; [done|].
  by repeat constructor.
Qed.


(** ** C8: the retry loop *)

Section Retry.

Import OllamaClient.

Variable fetch : nat -> FetchOutcome.

Lemma within_limit_whole (i n : nat) :
  within_limit i (whole n) = true <-> i <= n.
Proof.
  unfold within_limit, whole. rewrite Qle_bool_iff, <- Zle_Qle. lia.
Qed.

Lemma is_limit_whole (i n : nat) : is_limit i (whole n) = true <-> i = n.
Proof.
  unfold is_limit, whole. rewrite Qeq_bool_iff, inject_Z_injective. lia.
Qed.

Lemma within_limit_earlier (i k : nat) (maxRetries : Number) :
  i <= k -> within_limit k maxRetries = true -> within_limit i maxRetries = true.
Proof.
  intros Hik. destruct maxRetries as [| | |q]; try done.
  unfold within_limit. rewrite !Qle_bool_iff. intros Hk.
  eapply Qle_trans; [|exact Hk]. rewrite <- Zle_Qle. lia.
Qed.

Lemma is_limit_not_earlier (i k : nat) (maxRetries : Number) :
  i < k -> within_limit k maxRetries = true -> is_limit i maxRetries = false.
Proof.
  intros Hik. destruct maxRetries as [| | |q]; try done.
  unfold within_limit, is_limit. rewrite Qle_bool_iff. intros Hk.
  destruct (Qeq_bool _ q) eqn:Elimit; [|done].
  apply Qeq_bool_iff in Elimit. rewrite <- Elimit, <- Zle_Qle in Hk. lia.
Qed.

Lemma within_limit_floor (i : nat) (q : Q) :
  within_limit i (Finite q) = true -> (Z.of_nat i <= Qfloor q)%Z.
Proof.
  unfold within_limit. rewrite Qle_bool_iff. intros Hi%Qfloor_resp_le.
  by rewrite Qfloor_Z in Hi.
Qed.

Lemma failed_rounds_cons (from n : nat) :
  failed_rounds from (S n)
  = Fetch from :: Sleep (backoff_delay from) :: failed_rounds (S from) n.
Proof. done. Qed.

(** What the loop has done when it ends. *)
Lemma attempts_from_shape (maxRetries : Number) (fuel attempt : nat)
    (outcome : result JsonValue) (events : list RequestEvent) :
  attempts_from maxRetries fetch fuel attempt = Some (outcome, events) ->
  exists n,
    (forall i, attempt <= i < attempt + n ->
       within_limit i maxRetries = true /\ is_limit i maxRetries = false /\
       exists error, attempt_result fetch i = Throw error) /\
    ((within_limit (attempt + n) maxRetries = true /\
      events = failed_rounds attempt n ++ [Fetch (attempt + n)] /\
      ((exists v, attempt_result fetch (attempt + n) = Ok v /\ outcome = Ok v) \/
       (is_limit (attempt + n) maxRetries = true /\
        exists error,
          attempt_result fetch (attempt + n) = Throw error /\
          outcome = Throw (failure_message (attempt + n) error)))) \/
     (within_limit (attempt + n) maxRetries = false /\
      events = failed_rounds attempt n /\
      outcome = Throw "Unexpected error in makeRequest")).
Proof.
  revert attempt outcome events.
  induction fuel as [|fuel IH]; intros attempt outcome events; [done|].
  cbn [attempts_from].
  destruct (within_limit attempt maxRetries) eqn:Ewithin; last first.
  { intros [= <- <-]. exists 0. rewrite Nat.add_0_r.
    split; [intros i Hi; lia|]. by right. }
  destruct (attempt_result fetch attempt) as [v|error] eqn:Eattempt.
  { intros [= <- <-]. exists 0. rewrite Nat.add_0_r.
    split; [intros i Hi; lia|]. left. split; [done|]. split; [done|].
    left. by exists v. }
  destruct (is_limit attempt maxRetries) eqn:Elimit.
  { intros [= <- <-]. exists 0. rewrite Nat.add_0_r.
    split; [intros i Hi; lia|]. left. split; [done|]. split; [done|].
    right. split; [done|]. by exists error. }
  destruct (attempts_from maxRetries fetch fuel (S attempt)) as [[r later]|] eqn:Erest;
    [|done].
  intros [= <- <-].
  destruct (IH _ _ _ Erest) as (n & Hfailed & Hend).
  exists (S n). replace (attempt + S n) with (S attempt + n) by lia.
  rewrite failed_rounds_cons. split.
  - intros i Hi. destruct (decide (i = attempt)) as [->|Hne]; [eauto|].
    apply Hfailed. lia.
  - destruct Hend as [(Hw & -> & Hlast) | (Hw & -> & ->)]; [left|right]; done.
Qed.

(** With a finite [maxRetries] the loop ends. *)
Lemma attempts_from_returns (q : Q) (fuel attempt : nat) :
  (Qfloor q + 1 < Z.of_nat (fuel + attempt))%Z -> 0 < fuel ->
  exists r, attempts_from (Finite q) fetch fuel attempt = Some r.
Proof.
  revert attempt. induction fuel as [|fuel IH]; intros attempt Hfuel Hpos; [lia|].
  cbn [attempts_from].
  destruct (within_limit attempt (Finite q)) eqn:Ewithin; [|by eexists].
  apply within_limit_floor in Ewithin.
  destruct (attempt_result fetch attempt) as [v|error]; [by eexists|].
  destruct (is_limit attempt (Finite q)); [by eexists|].
  destruct (IH (S attempt)) as [[r later] ->]; [lia..|]. by eexists.
Qed.

(** With a whole [maxRetries] it ends within [maxRetries + 1] iterations. *)
Lemma attempts_from_returns_whole (n fuel attempt : nat) :
  n < fuel + attempt -> 0 < fuel ->
  exists r, attempts_from (whole n) fetch fuel attempt = Some r.
Proof.
  revert attempt. induction fuel as [|fuel IH]; intros attempt Hfuel Hpos; [lia|].
  cbn [attempts_from].
  destruct (within_limit attempt (whole n)) eqn:Ewithin; [|by eexists].
  apply within_limit_whole in Ewithin.
  destruct (attempt_result fetch attempt) as [v|error]; [by eexists|].
  destruct (is_limit attempt (whole n)) eqn:Elimit; [by eexists|].
  assert (attempt <> n) as Hne.
  { intros ->. by rewrite (proj2 (is_limit_whole n n)) in Elimit. }
  destruct (IH (S attempt)) as [[r later] ->]; [lia..|]. by eexists.
Qed.

Lemma fetched_failed_rounds from n k :
  fetched (failed_rounds from n ++ [Fetch k]) = seq from n ++ [k].
Proof.
  revert from. induction n as [|n IH]; intros from; [done|].
  unfold failed_rounds in *. cbn. f_equal. apply IH.
Qed.

Lemma slept_failed_rounds from n k :
  slept (failed_rounds from n ++ [Fetch k]) = map backoff_delay (seq from n).
Proof.
  revert from. induction n as [|n IH]; intros from; [done|].
  unfold failed_rounds in *. cbn. f_equal. apply IH.
Qed.

Lemma slept_failed_rounds_only from n :
  slept (failed_rounds from n) = map backoff_delay (seq from n).
Proof.
  revert from. induction n as [|n IH]; intros from; [done|].
  unfold failed_rounds in *. cbn. f_equal. apply IH.
Qed.

Lemma backoff_delay_bounds (attempt : nat) :
  (1000 <= backoff_delay attempt <= 10000)%Z.
Proof.
  unfold backoff_delay.
  assert (0 < 2 ^ Z.of_nat attempt)%Z by (apply Z.pow_pos_nonneg; lia). lia.
Qed.

(** With a whole number of retries: a failed attempt, be it a rejected
    [fetch] or a status outside 200-299, is followed by a delay of
    [min(1000 * 2^attempt, 10000)] ms and by another attempt, as long as
    fewer than [maxRetries + 1] attempts were made; the failure of attempt
    number [maxRetries] ends the request with one error that names
    [maxRetries + 1] attempts and carries the last failure. *)
Theorem makeRequest_retries_with_backoff (maxRetries more : nat) :
  exists outcome events,
    makeRequest (whole maxRetries) fetch (S maxRetries + more)
    = Some (outcome, events) /\
    (exists n,
       n <= maxRetries /\
       events = failed_rounds 0 n ++ [Fetch n] /\
       fetched events = seq 0 (S n) /\
       slept events = map backoff_delay (seq 0 n) /\
       (forall i, i < n -> exists error, attempt_result fetch i = Throw error) /\
       ((exists v, attempt_result fetch n = Ok v /\ outcome = Ok v) \/
        (n = maxRetries /\
         exists error,
           attempt_result fetch n = Throw error /\
           outcome = Throw ("Ollama request failed after "
                            +:+ JsString.of_nat (maxRetries + 1)
                            +:+ " attempts: " +:+ error)))) /\
    length (fetched events) <= maxRetries + 1 /\
    (forall attempt,
       backoff_delay attempt = Z.min (1000 * 2 ^ Z.of_nat attempt) 10000 /\
       (1000 <= backoff_delay attempt <= 10000)%Z) /\
    (forall i error, fetch i = Rejected error -> attempt_result fetch i = Throw error) /\
    (forall i status statusText json,
       fetch i = Responded status statusText json ->
       response_ok status = false ->
       exists error, attempt_result fetch i = Throw error).
Proof.
  unfold makeRequest.
  destruct (attempts_from_returns_whole maxRetries (S maxRetries + more) 0)
    as [[outcome events] Hreturns]; [lia..|].
  exists outcome, events. split; [exact Hreturns|].
  apply attempts_from_shape in Hreturns as (n & Hfailed & Hend).
  cbn [Nat.add] in Hfailed, Hend.
  fold (whole maxRetries) in Hfailed, Hend.
  destruct Hend as [(Hwithin & Hevents & Hlast) | (Hwithin & _ & _)]; last first.
  { exfalso. destruct n as [|n].
    - assert (within_limit 0 (whole maxRetries) = true)
        by (apply within_limit_whole; lia). congruence.
    - destruct (Hfailed n) as (Hw & Hl & _); [lia|].
      apply within_limit_whole in Hw.
      assert (within_limit (S n) (whole maxRetries) = true); [|congruence].
      apply within_limit_whole.
      destruct (decide (n = maxRetries)) as [->|]; [|lia].
      assert (is_limit maxRetries (whole maxRetries) = true)
        by by apply is_limit_whole.
      congruence. }
  apply within_limit_whole in Hwithin.
  assert (Hfetched : fetched events = seq 0 (S n)).
  { rewrite Hevents, fetched_failed_rounds. by rewrite seq_S. }
  split; [|split; [|split; [|split]]].
  - exists n. split; [done|]. split; [done|]. split; [done|].
    split; [by rewrite Hevents, slept_failed_rounds|].
    split; [intros i Hi; apply Hfailed; lia|].
    destruct Hlast as [Hok | (Hlimit & error & Herror & ->)]; [by left|].
    apply is_limit_whole in Hlimit as ->. right. split; [done|]. by exists error.
  - rewrite Hfetched, length_seq. lia.
  - intros attempt. split; [done|apply backoff_delay_bounds].
  - intros i error Hi. unfold attempt_result. by rewrite Hi.
  - intros i status statusText json Hi Hok. unfold attempt_result.
    rewrite Hi, Hok. eauto.
Qed.

End Retry.

(** C8 fails on the code for a number of retries that is not whole, which
    the configuration accepts: with [maxRetries = 1.5] and a server that
    answers 500 each time, [attempt === this.maxRetries] never holds, so the
    second and last attempt is followed by a delay too, and the error is the
    one after the loop, which carries neither the last failure nor the
    number of attempts. *)
Theorem makeRequest_fractional_maxRetries :
  OllamaClient.makeRequest (OllamaClient.Finite 1.5%Q)
    (fun _ => OllamaClient.Responded 500 "Internal Server Error" (Throw "")) 3
  = Some (Throw "Unexpected error in makeRequest",
          [OllamaClient.Fetch 0; OllamaClient.Sleep 1000;
           OllamaClient.Fetch 1; OllamaClient.Sleep 2000]).
Proof. reflexivity. Qed.

(** Three retries against a server that answers 500 each time. *)
Example makeRequest_gives_up :
  OllamaClient.makeRequest (whole 3)
    (fun _ => OllamaClient.Responded 500 "Internal Server Error" (Throw "")) 4
  = Some (Throw ("Ollama request failed after 4 attempts: "
                 +:+ "Error: Ollama API request failed: 500 Internal Server Error"),
          [OllamaClient.Fetch 0; OllamaClient.Sleep 1000;
           OllamaClient.Fetch 1; OllamaClient.Sleep 2000;
           OllamaClient.Fetch 2; OllamaClient.Sleep 4000;
           OllamaClient.Fetch 3]).
Proof. reflexivity. Qed.

(** A number of retries that is not a number: no attempt is made. *)
Example makeRequest_without_attempt :
  OllamaClient.makeRequest OllamaClient.NaN
    (fun _ => OllamaClient.Responded 200 "OK" (Ok (JObject []))) 1
  = Some (Throw "Unexpected error in makeRequest", []).
Proof. reflexivity. Qed.

Example backoff_delay_is_capped :
  map OllamaClient.backoff_delay [0; 1; 2; 3; 4; 5]
  = [1000; 2000; 4000; 8000; 10000; 10000]%Z.
Proof. reflexivity. Qed.

(** The sum of two counts is a double: beyond 2^53 it is rounded. *)
Example number_add_rounds :
  number_add 9007199254740991 2 = 9007199254740992%Z /\
  number_add 9007199254740992 3 = 9007199254740996%Z /\
  number_add 120 34 = 154%Z.
Proof. by vm_compute. Qed.

(** ** C9: the argument is left as it was *)

Section Frame.

Import Store.

Variable JSON_parse : string -> result JsonValue.

Lemma alloc_spec (o : Object) (σ σ' : Store) (l : loc) :
  alloc o σ = (l, σ') -> σ !! l = None /\ σ' = <[l := o]> σ.
Proof.
  unfold alloc. intros [= <- <-]. split; [|done].
  apply not_elem_of_dom, is_fresh.
Qed.

#[local] Opaque alloc.

Lemma snapshot_inv (σ : Store) (l : loc) (response : OllamaChatResponse) :
  snapshot σ l = Some response ->
  exists r m calls,
    σ !! l = Some (ResponseObject r) /\
    σ !! message r = Some (MessageObject m) /\
    match tool_calls m with
    | Some a => exists items, σ !! a = Some (ArrayObject items) /\ calls = Some items
    | None => calls = None
    end /\
    response = set_message (set_tool_calls calls m) r.
Proof.
  unfold snapshot, response_at, message_at, tool_calls_at, array_at.
  destruct (σ !! l) as [[r| |]|] eqn:El; try done. simpl.
  destruct (σ !! message r) as [[|m|]|] eqn:Em; try done. simpl.
  destruct (tool_calls m) as [a|] eqn:Ea; simpl.
  - destruct (σ !! a) as [[| |items]|] eqn:Eitems; try done. simpl.
    intros [= <-]. exists r, m, (Some items). rewrite Ea. eauto 10.
  - intros [= <-]. exists r, m, None. by rewrite Ea.
Qed.

Lemma snapshot_intro (σ : Store) (l : loc) r m calls :
  σ !! l = Some (ResponseObject r) ->
  σ !! message r = Some (MessageObject m) ->
  match tool_calls m with
  | Some a => exists items, σ !! a = Some (ArrayObject items) /\ calls = Some items
  | None => calls = None
  end ->
  snapshot σ l = Some (set_message (set_tool_calls calls m) r).
Proof.
  intros Hl Hm Hcalls.
  unfold snapshot, response_at, message_at, tool_calls_at, array_at.
  rewrite Hl. simpl. rewrite Hm. simpl.
  destruct (tool_calls m) as [a|].
  - destruct Hcalls as (items & -> & ->). done.
  - by subst.
Qed.

(** The copy is a new object with the contents of the original, and the
    store is only extended. *)
Lemma deep_copy_spec (σ : Store) (l : loc) (response : OllamaChatResponse) :
  snapshot σ l = Some response ->
  exists l' σ' r m,
    deep_copy l σ = Some (l', σ') /\
    σ ⊆ σ' /\
    σ !! l' = None /\ σ !! message r = None /\
    σ' !! l' = Some (ResponseObject r) /\
    σ' !! message r = Some (MessageObject m) /\
    match tool_calls m with
    | Some a => σ !! a = None /\
                exists items, σ' !! a = Some (ArrayObject items) /\
                              tool_calls (message response) = Some items
    | None => tool_calls (message response) = None
    end /\
    forall calls : option (list OllamaToolCall),
      set_message (set_tool_calls calls m) r
      = set_message (set_tool_calls calls (message response)) response.
Proof.
  intros (r & m & calls & Hl & Hm & Hcalls & ->)%snapshot_inv.
  unfold deep_copy, response_at, message_at, tool_calls_at, array_at.
  rewrite Hl. simpl. rewrite Hm. simpl.
  destruct (tool_calls m) as [a|] eqn:Ea.
  - destruct Hcalls as (items & Hitems & ->). rewrite Hitems. simpl.
    destruct (alloc (ArrayObject items) σ) as [a' σ1] eqn:E1.
    destruct (alloc (MessageObject (set_tool_calls (Some a') m)) σ1) as [m' σ2] eqn:E2.
    destruct (alloc (ResponseObject (set_message m' r)) σ2) as [r' σ3] eqn:E3.
    apply alloc_spec in E1 as [F1 ->], E2 as [F2 ->], E3 as [F3 ->].
    exists r', (<[r':=ResponseObject (set_message m' r)]>
                  (<[m':=MessageObject (set_tool_calls (Some a') m)]>
                     (<[a':=ArrayObject items]> σ))),
      (set_message m' r), (set_tool_calls (Some a') m).
    assert (a' <> m') by (intros ->; by rewrite lookup_insert_eq in F2).
    assert (m' <> r') by (intros ->; by rewrite lookup_insert_eq in F3).
    assert (a' <> r').
    { intros ->. rewrite lookup_insert_ne, lookup_insert_eq in F3; done. }
    rewrite lookup_insert_ne in F2 by done.
    rewrite !lookup_insert_ne in F3 by done.
    split; [done|]. split.
    { do 3 (apply insert_subseteq_r; [done|]). done. }
    split; [done|]. split; [done|].
    split; [by rewrite lookup_insert_eq|].
    split; [simpl; by rewrite lookup_insert_ne, lookup_insert_eq|].
    split; [|done]. simpl. split; [done|]. exists items. split; [|done].
    do 2 (rewrite lookup_insert_ne by done). by rewrite lookup_insert_eq.
  - subst calls. simpl.
    destruct (alloc (MessageObject (set_tool_calls None m)) σ) as [m' σ2] eqn:E2.
    destruct (alloc (ResponseObject (set_message m' r)) σ2) as [r' σ3] eqn:E3.
    apply alloc_spec in E2 as [F2 ->], E3 as [F3 ->].
    exists r', (<[r':=ResponseObject (set_message m' r)]>
                  (<[m':=MessageObject (set_tool_calls None m)]> σ)),
      (set_message m' r), (set_tool_calls None m).
    assert (m' <> r') by (intros ->; by rewrite lookup_insert_eq in F3).
    rewrite !lookup_insert_ne in F3 by done.
    split; [done|]. split.
    { do 2 (apply insert_subseteq_r; [done|]). done. }
    split; [done|]. split; [done|].
    split; [by rewrite lookup_insert_eq|].
    split; [simpl; by rewrite lookup_insert_ne, lookup_insert_eq|].
    done.
Qed.

Lemma snapshot_weaken (σ σ' : Store) (l : loc) (response : OllamaChatResponse) :
  σ ⊆ σ' -> snapshot σ l = Some response -> snapshot σ' l = Some response.
Proof.
  intros Hsub (r & m & calls & Hl & Hm & Hcalls & ->)%snapshot_inv.
  apply snapshot_intro.
  - by eapply lookup_weaken.
  - by eapply lookup_weaken.
  - destruct (tool_calls m) as [a|]; [|done].
    destruct Hcalls as (items & Hitems & ->). exists items.
    split; [by eapply lookup_weaken|done].
Qed.

#[local] Opaque snapshot.

(** C9: the call returns what the function on values returns for the
    contents of its argument, every object that existed before the call is
    afterwards as it was, and so are the contents of the argument: the
    assignment of the valid calls goes to the message of the copy. *)
Theorem validateAndTranslateResponse_leaves_input (σ : Store) (l : loc)
    (response : OllamaChatResponse) (modelName : string)
    (registeredTools : list Tool) :
  snapshot σ l = Some response ->
  exists σ',
    Store.validateAndTranslateResponse JSON_parse l modelName registeredTools σ
    = Some (OllamaResponseTranslator.validateAndTranslateResponse
              JSON_parse response modelName registeredTools, σ') /\
    (forall l' o, σ !! l' = Some o -> σ' !! l' = Some o) /\
    snapshot σ' l = Some response.
Proof.
  intros Hsnapshot.
  destruct (deep_copy_spec _ _ _ Hsnapshot)
    as (l' & σ1 & r & m & Hcopy & Hsub & Fl' & Fm & Hl' & Hm' & Hcalls & Hset).
  assert (Hne : l' <> message r) by (intros Heq; rewrite Heq in Hl'; congruence).
  unfold Store.validateAndTranslateResponse.
  rewrite Hcopy. simpl. unfold response_at. rewrite Hl'. simpl.
  unfold message_at. rewrite Hm'. simpl.
  rewrite validateAndTranslateResponse_eq. cbv zeta.
  destruct (tool_calls m) as [a|] eqn:Ea.
  - destruct Hcalls as (Fa & items & Hitems & Hresponse).
    unfold array_at. rewrite Hitems, Hresponse. simpl.
    destruct (OllamaResponseTranslator.filter_valid _ items _ _ _)
      as [validCalls e] eqn:Efilter. simpl.
    destruct (alloc (ArrayObject validCalls) σ1) as [v σ2] eqn:Ealloc.
    apply alloc_spec in Ealloc as [Fv ->].
    assert (v <> message r) by (intros ->; congruence).
    assert (v <> l') by (intros ->; congruence).
    set (σ3 := <[message r:=MessageObject (set_tool_calls (Some v) m)]>
                 (<[v:=ArrayObject validCalls]> σ1)).
    assert (Hsub3 : σ ⊆ σ3).
    { apply insert_subseteq_r; [done|]. apply insert_subseteq_r; [|done].
      destruct (σ !! v) eqn:E; [|done].
      by rewrite (lookup_weaken _ _ _ _ E Hsub) in Fv. }
    assert (Hsnap3 : snapshot σ3 l'
                     = Some (set_message
                               (set_tool_calls (Some validCalls)
                                  (set_tool_calls (Some v) m)) r)).
    { apply snapshot_intro.
      - unfold σ3. by do 2 (rewrite lookup_insert_ne by done).
      - unfold σ3. by rewrite lookup_insert_eq.
      - simpl. exists validCalls. split; [|done].
        unfold σ3. rewrite lookup_insert_ne by done. by rewrite lookup_insert_eq. }
    simpl. rewrite Hsnap3. simpl. exists σ3. split; [|split].
    + do 2 f_equal. unfold OllamaResponseTranslator.with_tool_calls.
      by rewrite <- Hset.
    + intros l0 o Hl0. by eapply lookup_weaken.
    + by eapply snapshot_weaken.
  - simpl.
    assert (Hsnap1 : snapshot σ1 l' = Some (set_message (set_tool_calls None m) r)).
    { apply snapshot_intro; [done..|]. by rewrite Ea. }
    rewrite Hsnap1. simpl. rewrite Hcalls. exists σ1. split; [|split].
    + do 2 f_equal. rewrite Hset.
      destruct response as [? ? [? ? calls] ? ? ? ? ? ? ? ?]. simpl in *. by subst.
    + intros l0 o Hl0. by eapply lookup_weaken.
    + by eapply snapshot_weaken.
Qed.

End Frame.

Lemma validateAndTranslateResponse_leaves_input_witness :
  exists σ',
    Store.validateAndTranslateResponse Sample.parse 0 "mistral:latest"
      [Sample.tool "search"] Sample.store
    = Some (OllamaResponseTranslator.validateAndTranslateResponse Sample.parse
              (Sample.response
                 (Some [Sample.call "search" (JString "{}");
                        Sample.call "invented" (JObject [])]) true)
              "mistral:latest" [Sample.tool "search"], σ') /\
    (forall l' o, Sample.store !! l' = Some o -> σ' !! l' = Some o) /\
    Store.snapshot σ' 0
    = Some (Sample.response
              (Some [Sample.call "search" (JString "{}");
                     Sample.call "invented" (JObject [])]) true).
Proof.
  apply (validateAndTranslateResponse_leaves_input Sample.parse Sample.store 0).
  vm_compute. reflexivity.
Defined.

(** In that run one of the two calls is filtered out of the result. *)
Example validation_filters_the_copy :
  (fun r => function_calls r.1.1)
    <$> Store.validateAndTranslateResponse Sample.parse 0 "mistral:latest"
          [Sample.tool "search"] Sample.store
  = Some [{| name := "search"; args := Some (JObject []) |}].
Proof. vm_compute. reflexivity. Qed.

(** The store does tell an assignment to the message of the argument: had
    the function assigned to it, the contents of the argument would differ. *)
Example assignment_to_the_argument_shows :
  Store.snapshot
    (<[1 := Store.MessageObject
              {| role := "assistant"; content := ""; tool_calls := None |}]>
       Sample.store) 0
  <> Store.snapshot Sample.store 0.
Proof. vm_compute. discriminate. Qed.

(** * Further properties of the code *)

(** ** ModelCapabilities.ts *)

Lemma table_entries_resolve :
  Forall (fun entry => getModelCapabilities entry.1 = Entry entry.2) MODEL_CAPABILITIES.
Proof. repeat constructor. Qed.

(** A key of the table resolves to the entry written under it: no key is
    taken over by an earlier entry or by the family match. *)
Theorem registered_key_resolves_to_its_entry (key : string)
    (c : ModelToolCapabilities) :
  (key, c) ∈ MODEL_CAPABILITIES ->
  getModelCapabilities key = Entry c.
Proof.
  intros Hin.
  exact (proj1 (Forall_forall _ _) table_entries_resolve (key, c) Hin).
Qed.

Lemma registered_key_resolves_to_its_entry_witness :
  getModelCapabilities "mistral-nemo"
  = Entry (openai_model 64 true false standard excellent None None).
Proof.
  apply registered_key_resolves_to_its_entry.
  do 4 right. left.
Defined.

Lemma table_entries_support_tools :
  Forall (fun entry => supportsTools entry.2 = true) MODEL_CAPABILITIES.
Proof. repeat constructor. Qed.

Lemma partial_match_in_table modelName normalizedName entries c :
  partial_match modelName normalizedName entries = Some c ->
  exists key, (key, c) ∈ entries.
Proof.
  induction entries as [|[k c'] rest IH]; simpl; [done|].
  destruct (_ || _).
  - intros [= ->]. exists k. left.
  - intros [key Hkey]%IH. exists key. by right.
Qed.

(** What the lookup can return. *)
Lemma getModelCapabilities_cases (modelName : string) :
  (exists member, getModelCapabilities modelName = Inherited member) \/
  getModelCapabilities modelName = Entry DEFAULT_MODEL_CAPABILITIES \/
  (exists key c, (key, c) ∈ MODEL_CAPABILITIES /\
                 getModelCapabilities modelName = Entry c).
Proof.
  unfold getModelCapabilities, index.
  destruct (own_property modelName _) as [c|] eqn:E1.
  { right. right. exists modelName, c. split; [by apply own_property_eqb|done]. }
  destruct (inherited modelName); [left; eauto|].
  destruct (own_property (normalizeModelName modelName) _) as [c|] eqn:E2.
  { right. right. eexists _, c. split; [by apply own_property_eqb|done]. }
  destruct (inherited (normalizeModelName modelName)); [left; eauto|].
  destruct (partial_match _ _ _) as [c|] eqn:E3; [|by right; left].
  right. right. apply partial_match_in_table in E3 as [key Hkey]. eauto.
Qed.

(** [modelSupportsTools] holds exactly of the ids that the lookup resolves
    to an entry of the table: an id that falls through to the default, or
    that names an inherited member, does not support tools. *)
Theorem modelSupportsTools_iff_in_table (modelName : string) :
  modelSupportsTools modelName = true <->
  exists key c, (key, c) ∈ MODEL_CAPABILITIES /\
                getModelCapabilities modelName = Entry c.
Proof.
  unfold modelSupportsTools, truthy_supportsTools. split.
  - destruct (getModelCapabilities_cases modelName)
      as [[member ->] | [-> | (key & c & Hin & Hc)]]; [done..|].
    intros _. eauto.
  - intros (key & c & Hin & ->). simpl.
    exact (proj1 (Forall_forall _ _) table_entries_support_tools (key, c) Hin).
Qed.

Lemma strip_at_end_prefix (p : string -> bool) (s : string) :
  exists removed, s = JsString.strip_at_end p s +:+ removed.
Proof.
  induction s as [|c s [removed IH]]; cbn [JsString.strip_at_end].
  - exists "". by destruct (p "").
  - destruct (p (String c s)); [by exists (String c s)|].
    exists removed. by rewrite append_cons, <- IH.
Qed.

Lemma every_char_app (p : Ascii.ascii -> bool) (s t : string) :
  every_char p (s +:+ t) = every_char p s && every_char p t.
Proof.
  induction s as [|c s IH]; [done|].
  rewrite append_cons. cbn [every_char]. by rewrite IH, andb_assoc.
Qed.

Lemma string_length_app (s t : string) :
  String.length (s +:+ t) = String.length s + String.length t.
Proof.
  induction s as [|c s IH]; [done|].
  rewrite append_cons. cbn [String.length]. by rewrite IH.
Qed.

Lemma lower_then_dash_normalized (c : Ascii.ascii) :
  normalized_char (separator_to_dash (JsString.lower_char c)) = true.
Proof. destruct c as [[] [] [] [] [] [] [] []]; reflexivity. Qed.

(** Normalization only cuts the lower-cased name short: the normalized name
    is a prefix of the lower-cased name with its separators turned to
    dashes, so it holds no capital letter, colon or at sign and is no longer
    than the lower-cased name. *)
Theorem normalizeModelName_is_prefix (modelName : string) :
  (exists removed,
     JsString.map_chars separator_to_dash (JsString.toLowerCase modelName)
     = normalizeModelName modelName +:+ removed) /\
  every_char normalized_char (normalizeModelName modelName) = true /\
  String.length (normalizeModelName modelName)
  <= String.length (JsString.toLowerCase modelName).
Proof.
  assert (Hprefix : exists removed,
            JsString.map_chars separator_to_dash (JsString.toLowerCase modelName)
            = normalizeModelName modelName +:+ removed).
  { unfold normalizeModelName.
    set (s0 := JsString.map_chars separator_to_dash (JsString.toLowerCase modelName)).
    destruct (strip_at_end_prefix size_indicator s0) as [r1 H1].
    set (s1 := JsString.strip_at_end size_indicator s0) in *.
    destruct (strip_at_end_prefix (String.eqb "-instruct") s1) as [r2 H2].
    set (s2 := JsString.strip_at_end (String.eqb "-instruct") s1) in *.
    destruct (strip_at_end_prefix (String.eqb "-chat") s2) as [r3 H3].
    set (s3 := JsString.strip_at_end (String.eqb "-chat") s2) in *.
    destruct (strip_at_end_prefix (String.eqb "-latest") s3) as [r4 H4].
    exists (r4 +:+ r3 +:+ r2 +:+ r1).
    rewrite H1 at 1. rewrite H2 at 1. rewrite H3 at 1. rewrite H4 at 1.
    by rewrite !append_assoc. }
  assert (Hall : forall s,
            every_char normalized_char
              (JsString.map_chars separator_to_dash (JsString.toLowerCase s)) = true).
  { unfold JsString.toLowerCase. induction s as [|c s IH]; [done|].
    cbn [JsString.map_chars every_char]. by rewrite lower_then_dash_normalized, IH. }
  assert (Hlen : forall f s, String.length (JsString.map_chars f s) = String.length s).
  { intros f. induction s as [|c s IH]; [done|]. cbn. by rewrite IH. }
  destruct Hprefix as [removed Hremoved]. split; [by exists removed|]. split.
  - specialize (Hall modelName). rewrite Hremoved, every_char_app in Hall.
    by apply andb_true_iff in Hall as [? _].
  - assert (Hsum : String.length (JsString.toLowerCase modelName)
                   = String.length (normalizeModelName modelName +:+ removed)).
    { by rewrite <- Hremoved, Hlen. }
    rewrite Hsum, string_length_app. lia.
Qed.

(** ** OllamaToolTranslator.ts *)

Section TranslatorFacts.

Import OllamaToolTranslator.

Variable JSON_stringify : Tool -> string.

Lemma take_length_le (n : nat) (s : string) :
  String.length (JsString.take n s) <= n.
Proof.
  revert s. induction n as [|n IH]; intros [|c s]; cbn; try lia.
  specialize (IH s). lia.
Qed.

(** A description handed to the backend is never longer than the limit of
    the format: 200 characters for the custom format, 500 otherwise. *)
Theorem sanitizeDescription_length (description : string)
    (capabilities : ModelToolCapabilities) :
  String.length (sanitizeDescription description capabilities)
  <= description_limit capabilities.
Proof.
  unfold sanitizeDescription, description_limit.
  destruct (String.eqb description "").
  { destruct (toolFormat_is custom capabilities); cbn; lia. }
  cbv zeta.
  set (limit := if toolFormat_is custom capabilities then 200 else 500).
  assert (3 <= limit) by (unfold limit; destruct (toolFormat_is custom capabilities); lia).
  match goal with |- context [Nat.ltb limit (String.length ?t)] => set (text := t) end.
  destruct (Nat.ltb limit (String.length text)) eqn:E.
  - rewrite string_length_app. pose proof (take_length_le (limit - 3) text).
    cbn [String.length]. lia.
  - apply Nat.ltb_ge in E. lia.
Qed.

Lemma every_char_filter (p : Ascii.ascii -> bool) (s : string) :
  every_char p (JsString.filter_chars p s) = true.
Proof.
  induction s as [|c s IH]; [done|]. cbn [JsString.filter_chars].
  destruct (p c) eqn:E; [|done]. cbn [every_char]. by rewrite E, IH.
Qed.

Lemma every_char_collapse (p : Ascii.ascii -> bool) (s : string) :
  forall pending,
    every_char p (or_default "" pending) = true ->
    every_char p s = true ->
    every_char p (collapse_newlines pending s) = true.
Proof.
  induction s as [|c s IH]; intros pending Hpending Hs; [done|].
  cbn [every_char] in Hs. apply andb_true_iff in Hs as [Hc Hs].
  cbn [collapse_newlines]. destruct pending as [ws|]; cbn [or_default] in Hpending.
  - destruct (is_LF c); [by apply IH|].
    destruct (JsString.is_space c).
    + apply IH; [|done]. cbn [or_default].
      rewrite every_char_app, Hpending. cbn [every_char]. by rewrite Hc.
    + rewrite every_char_app, Hpending. cbn [every_char]. rewrite Hc.
      by rewrite IH.
  - cbn [every_char]. rewrite Hc. by destruct (is_LF c); apply IH.
Qed.

Lemma every_char_drop_while (p q : Ascii.ascii -> bool) (s : string) :
  every_char p s = true -> every_char p (JsString.drop_while q s) = true.
Proof.
  induction s as [|c s IH]; [done|]. intros Hs. cbn [JsString.drop_while].
  destruct (q c); [|done]. cbn [every_char] in Hs.
  apply andb_true_iff in Hs as [_ Hs]. by apply IH.
Qed.

Lemma every_char_drop_while_end (p q : Ascii.ascii -> bool) (s : string) :
  every_char p s = true -> every_char p (JsString.drop_while_end q s) = true.
Proof.
  induction s as [|c s IH]; [done|]. intros Hs. cbn [JsString.drop_while_end].
  cbn [every_char] in Hs. apply andb_true_iff in Hs as [Hc Hs].
  destruct (q c && JsString.all_chars q s); [done|].
  cbn [every_char]. by rewrite Hc, IH.
Qed.

Lemma every_char_take (p : Ascii.ascii -> bool) (n : nat) (s : string) :
  every_char p s = true -> every_char p (JsString.take n s) = true.
Proof.
  revert s. induction n as [|n IH]; intros [|c s]; cbn; try done.
  intros [Hc Hs]%andb_true_iff. by rewrite Hc, IH.
Qed.

Lemma lower_char_not_angle (c : Ascii.ascii) :
  not_angle c = true -> not_angle (JsString.lower_char c) = true.
Proof. destruct c as [[] [] [] [] [] [] [] []]; by vm_compute. Qed.

Lemma every_char_toLowerCase_not_angle (s : string) :
  every_char not_angle s = true ->
  every_char not_angle (JsString.toLowerCase s) = true.
Proof.
  unfold JsString.toLowerCase. induction s as [|c s IH]; [done|].
  cbn [JsString.map_chars every_char]. intros [Hc Hs]%andb_true_iff.
  by rewrite lower_char_not_angle, IH.
Qed.

(** No angle bracket is left in a description, whatever the format. *)
Theorem sanitizeDescription_has_no_angle_bracket (description : string)
    (capabilities : ModelToolCapabilities) :
  every_char not_angle (sanitizeDescription description capabilities) = true.
Proof.
  unfold sanitizeDescription. destruct (String.eqb description ""); [done|].
  cbv zeta.
  set (clean := JsString.trim _).
  assert (Hclean : every_char not_angle clean = true).
  { unfold clean, JsString.trim.
    apply every_char_drop_while_end, every_char_drop_while, every_char_collapse; [done|].
    apply (every_char_filter not_angle). }
  assert (Hlower : every_char not_angle ("Function to " +:+ JsString.toLowerCase clean)
                   = true).
  { rewrite every_char_app. by rewrite every_char_toLowerCase_not_angle. }
  destruct (_ && _); destruct (Nat.ltb _ _); try done;
    rewrite every_char_app; by rewrite every_char_take.
Qed.

Lemma includes_prefixed (s t : string) : JsString.includes (s +:+ t) s = true.
Proof. apply includes_true_iff. by exists "", t. Qed.

Lemma enhance_property_idempotent (value : Schema) :
  enhance_property (enhance_property value) = enhance_property value.
Proof.
  destruct value as [t [d|] ps r o]; [|done].
  unfold enhance_property at 2. cbn [schema_description_of].
  destruct (negb (String.eqb d "") && negb (JsString.includes d "Parameter:")) eqn:E.
  - unfold enhance_property. cbn [set_schema_description schema_description_of].
    change ("Parameter: " +:+ d) with ("Parameter:" +:+ (" " +:+ d)).
    by rewrite E, includes_prefixed, andb_false_r.
  - unfold enhance_property. cbn [schema_description_of]. by rewrite E.
Qed.

(** Enhancing the descriptions of the parameters a second time changes
    nothing, and the parameters keep their names and their order. *)
Theorem enhanceParameterDescriptions_idempotent (properties : list (string * Schema)) :
  enhanceParameterDescriptions (enhanceParameterDescriptions properties)
  = enhanceParameterDescriptions properties /\
  map fst (enhanceParameterDescriptions properties) = map fst properties.
Proof.
  unfold enhanceParameterDescriptions. split.
  - induction properties as [|[k v] rest IH]; [done|].
    cbn [map fst snd]. by rewrite enhance_property_idempotent, IH.
  - induction properties as [|[k v] rest IH]; [done|].
    cbn [map fst snd]. by rewrite IH.
Qed.

Lemma filter_has_declarations_split (offered : list Tool) :
  filter (fun t => has_declarations t = true) offered
  ++ filter (fun t => has_declarations t = false) offered ≡ₚ offered.
Proof.
  induction offered as [|t rest IH]; [done|].
  rewrite !filter_cons. destruct (has_declarations t) eqn:E.
  - rewrite decide_True, decide_False by done. simpl. by rewrite IH.
  - rewrite decide_False, decide_True by done.
    rewrite <- Permutation_middle. by rewrite IH.
Qed.

(** The validation of the tools sorts every offered tool into exactly one
    of the two lists; for a model that supports tools the valid ones are
    those with a function declaration, and each invalid one gets a warning. *)
Theorem validateToolsForModel_partitions (offered : list Tool) (modelName : string) :
  let validation := validateToolsForModel JSON_stringify offered modelName in
  valid validation ++ invalid validation ≡ₚ offered /\
  (forall t, ~ (t ∈ valid validation /\ t ∈ invalid validation)) /\
  (modelSupportsTools modelName = true ->
   Forall (fun t => has_declarations t = true) (valid validation) /\
   Forall (fun t => has_declarations t = false) (invalid validation) /\
   length (warnings validation)
   = length (invalid validation)
     + match exceeded_limit offered (getModelCapabilities modelName) with
       | Some _ => 1
       | None => 0
       end) /\
  (modelSupportsTools modelName = false ->
   valid validation = [] /\ invalid validation = offered /\
   warnings validation = [unsupported_warning modelName]).
Proof.
  cbv zeta. unfold validateToolsForModel, modelSupportsTools.
  destruct (truthy_supportsTools (getModelCapabilities modelName)); cbn [negb valid invalid warnings].
  - split; [apply filter_has_declarations_split|]. split; [|split; [|done]].
    + intros t [[H1 _]%list_elem_of_filter [H2 _]%list_elem_of_filter]. congruence.
    + intros _. split; [|split].
      * apply Forall_forall. by intros t [? _]%list_elem_of_filter.
      * apply Forall_forall. by intros t [? _]%list_elem_of_filter.
      * rewrite length_app, length_map.
        destruct (exceeded_limit _ _); simpl; lia.
  - split; [done|]. split; [|split; [done|done]].
    by intros t [?%elem_of_nil _].
Qed.

End TranslatorFacts.

(** ** OllamaToolTranslationService.ts *)

Section ServiceFacts.

Import OllamaToolTranslator OllamaToolTranslationService.

Variable JSON_stringify : Tool -> string.

Lemma convertSingleTool_of_valid (t : Tool) (c : ModelToolCapabilities) :
  has_declarations t = true ->
  exists converted, (convertSingleTool t (Entry c)).1 = Some converted.
Proof.
  unfold has_declarations, convertSingleTool.
  destruct (functionDeclarations t) as [[|first others]|]; try done.
  intros _. by eexists.
Qed.

Lemma omap_length_all {A B} (f : A -> option B) (l : list A) :
  Forall (fun a => exists b, f a = Some b) l ->
  length (omap f l) = length l.
Proof.
  induction 1 as [|a l [b Hb] _ IH]; [done|].
  change (omap f (a :: l))
    with (match f a with Some y => y :: omap f l | None => omap f l end).
  rewrite Hb. simpl. by rewrite IH.
Qed.

(** For a model that supports tools the service translates the first
    [maxTools] of the tools that have a function declaration, one dialect
    tool for each: the tools without a declaration do not count against the
    limit, although the warning of truncation is decided on all of them. *)
Theorem translateToolsToModel_length (offered : list Tool) (modelName : string)
    (c : ModelToolCapabilities) :
  getModelCapabilities modelName = Entry c ->
  supportsTools c = true ->
  let translation := translateToolsToModel JSON_stringify offered modelName in
  length (tools translation)
  = min (maxTools c) (length (filter (fun t => has_declarations t = true) offered)) /\
  supported translation = true /\
  warnings translation
  = OllamaToolTranslator.warnings (validateToolsForModel JSON_stringify offered modelName).
Proof.
  intros Hc Hsupports. cbv zeta.
  unfold translateToolsToModel, modelSupportsTools, truthy_supportsTools.
  rewrite Hc. cbn [read]. rewrite Hsupports. cbn [negb tools supported warnings].
  split; [|done].
  rewrite (translateGeminiToolsToOllama_entry _ _ c Hc), Hsupports.
  unfold validateToolsForModel, truthy_supportsTools. rewrite Hc. cbn [read].
  rewrite Hsupports. cbn [negb valid].
  rewrite omap_length_all, length_take; [done|].
  apply Forall_forall. intros t Ht.
  apply convertSingleTool_of_valid.
  apply subseteq_take in Ht. by apply list_elem_of_filter in Ht as [? _].
Qed.

End ServiceFacts.

Lemma translateToolsToModel_length_witness :
  let offered :=
    [Sample.tool "search";
     {| functionDeclarations := None; other_members := [] |};
     Sample.tool "fetch"] in
  let translation :=
    OllamaToolTranslationService.translateToolsToModel Sample.stringify offered
      "mistral-nemo" in
  length (OllamaToolTranslationService.tools translation)
  = min 64 (length (filter (fun t => OllamaToolTranslator.has_declarations t = true)
                           offered)) /\
  OllamaToolTranslationService.supported translation = true /\
  OllamaToolTranslationService.warnings translation
  = OllamaToolTranslator.warnings
      (OllamaToolTranslator.validateToolsForModel Sample.stringify offered
         "mistral-nemo").
Proof.
  apply (translateToolsToModel_length Sample.stringify _ "mistral-nemo"
           (openai_model 64 true false standard excellent None None));
    reflexivity.
Defined.

(** The check of the service accepts a tool call exactly when its name is
    not empty and is the name of a function declaration of a registered
    tool. *)
Theorem validateToolCall_iff_registered (call : OllamaToolCall) (modelName : string)
    (registeredTools : list Tool) :
  OllamaToolTranslationService.validateToolCall (Some call) modelName registeredTools
  = true <->
  call_name call <> "" /\ registered (call_name call) registeredTools.
Proof.
  unfold OllamaToolTranslationService.validateToolCall.
  destruct (String.eqb (call_name call) "") eqn:Ename.
  { apply String.eqb_eq in Ename. split; [done|]. by intros [? _]. }
  apply String.eqb_neq in Ename.
  rewrite <- findRegisteredTool_registered.
  assert (Hsame : existsb
                    (fun tool =>
                       match functionDeclarations tool with
                       | Some decls =>
                           existsb (OllamaResponseTranslator.declares (call_name call)) decls
                       | None => false
                       end) registeredTools = true <->
                  OllamaResponseTranslator.findRegisteredTool (call_name call)
                    registeredTools <> None).
  { induction registeredTools as [|tool rest IH]; simpl; [done|].
    destruct (functionDeclarations tool) as [decls|]; [|by rewrite IH].
    destruct (existsb _ decls); [done|]. by rewrite IH. }
  rewrite Hsame. split; [done|]. by intros [_ ?].
Qed.

(** ** OllamaResponseTranslator.ts *)

Section ValidatorFacts.

Import OllamaResponseTranslator.

Variable JSON_parse : string -> result JsonValue.

Lemma filter_valid_fst calls capabilities registeredTools e :
  (filter_valid JSON_parse calls capabilities registeredTools e).1
  = filter (fun call =>
              kept_by_validator JSON_parse capabilities registeredTools call = true)
           calls.
Proof.
  revert e. induction calls as [|c rest IH]; intros e; [done|].
  cbn [filter_valid].
  pose proof (isValidToolCall_verdict JSON_parse c capabilities registeredTools
                e initial_effects) as Hc.
  destruct (isValidToolCall JSON_parse c capabilities registeredTools e) as [ok e1].
  specialize (IH e1).
  destruct (filter_valid JSON_parse rest capabilities registeredTools e1) as [kept e2].
  cbn [fst] in *.
  assert (Hkept : kept_by_validator JSON_parse capabilities registeredTools c = ok).
  { unfold kept_by_validator. by rewrite <- Hc. }
  destruct ok.
  - rewrite filter_cons_True by done. by rewrite IH.
  - rewrite filter_cons_False; [done|]. by rewrite Hkept.
Qed.

Lemma kept_call_converts capabilities registeredTools call :
  kept_by_validator JSON_parse capabilities registeredTools call = true ->
  exists fc,
    (convertToolCallToFunctionCall JSON_parse call capabilities).1 = Some fc.
Proof.
  unfold kept_by_validator, isValidToolCall, validateToolCallArguments.
  destruct (findRegisteredTool _ _); [|done].
  destruct (arguments_error JSON_parse (call_arguments call)) eqn:E; [done|].
  intros _. unfold convertToolCallToFunctionCall.
  unfold arguments_error in E.
  destruct (call_arguments call) as [[]|]; try done; try by eexists.
  destruct (JSON_parse s); [by eexists|done].
Qed.

(** The function calls of the result are the conversions of the calls that
    the validator keeps, in the order in which the backend sent them. *)
Theorem emitted_calls_in_order (response : OllamaChatResponse)
    (modelName : string) (registeredTools : list Tool) :
  let capabilities := getModelCapabilities modelName in
  let out := validateAndTranslateResponse JSON_parse response modelName registeredTools in
  function_calls out.1
  = omap (fun call => (convertToolCallToFunctionCall JSON_parse call capabilities).1)
         (filter (fun call =>
                    kept_by_validator JSON_parse capabilities registeredTools call = true)
                 (calls_of response)) /\
  map name (function_calls out.1) `sublist_of` map call_name (calls_of response).
Proof.
  cbv zeta.
  assert (Heq : function_calls
                  (validateAndTranslateResponse JSON_parse response modelName
                     registeredTools).1
                = omap (fun call =>
                          (convertToolCallToFunctionCall JSON_parse call
                             (getModelCapabilities modelName)).1)
                       (filter (fun call =>
                                  kept_by_validator JSON_parse
                                    (getModelCapabilities modelName) registeredTools call
                                  = true)
                               (calls_of response))).
  { rewrite validateAndTranslateResponse_eq. cbv zeta. unfold calls_of.
    destruct (tool_calls (message response)) as [calls|] eqn:Ecalls.
    - rewrite convertToGeminiFormat_calls. unfold calls_of. cbn.
      f_equal. apply filter_valid_fst.
    - rewrite convertToGeminiFormat_calls. unfold calls_of. by rewrite Ecalls. }
  split; [done|]. rewrite Heq.
  generalize (calls_of response). intros calls.
  induction calls as [|c rest IH]; [done|].
  rewrite filter_cons. destruct (decide _) as [Hkept|Hdropped].
  - destruct (kept_call_converts _ _ _ Hkept) as [fc Hfc].
    change (omap ?f (c :: ?l))
      with (match f c with Some y => y :: omap f l | None => omap f l end).
    cbv beta. rewrite Hfc. cbn [map].
    rewrite (convertToolCallToFunctionCall_name _ _ _ _ Hfc).
    by apply sublist_skip.
  - cbn [map]. by apply sublist_cons.
Qed.

Lemma isValidToolCall_counters call capabilities registeredTools e :
  let r := isValidToolCall JSON_parse call capabilities registeredTools e in
  length (warnings (stats r.2))
  = length (warnings (stats e)) + (if r.1 then 0 else 1) /\
  invalidJsonCalls (stats r.2) + unknownToolCalls (stats r.2)
  <= invalidJsonCalls (stats e) + unknownToolCalls (stats e) + (if r.1 then 0 else 1).
Proof.
  cbv zeta. unfold isValidToolCall.
  destruct (findRegisteredTool _ _); cbn.
  2:{ rewrite length_app. cbn. lia. }
  unfold validateToolCallArguments.
  destruct (arguments_error _ _); cbn.
  { rewrite length_app. cbn. lia. }
  unfold validateForModelSpecificRequirements.
  repeat (destruct (_ && _); cbn; [rewrite length_app; cbn; lia|]). lia.
Qed.

Lemma filter_valid_counters calls capabilities registeredTools e :
  let r := filter_valid JSON_parse calls capabilities registeredTools e in
  length (warnings (stats r.2)) + length r.1
  = length (warnings (stats e)) + length calls /\
  invalidJsonCalls (stats r.2) + unknownToolCalls (stats r.2) + length r.1
  <= invalidJsonCalls (stats e) + unknownToolCalls (stats e) + length calls.
Proof.
  cbv zeta. revert e. induction calls as [|c rest IH]; intros e; [cbn; lia|].
  cbn [filter_valid].
  pose proof (isValidToolCall_counters c capabilities registeredTools e) as Hc.
  cbv zeta in Hc.
  destruct (isValidToolCall JSON_parse c capabilities registeredTools e) as [ok e1].
  specialize (IH e1).
  destruct (filter_valid JSON_parse rest capabilities registeredTools e1) as [kept e2].
  cbn [fst snd] in *. destruct ok; cbn [length]; lia.
Qed.

(** The statistics agree with the result: [totalToolCalls] counts the calls
    of the backend, [validToolCalls] the function calls emitted,
    [hallucinatedToolCalls] the rest; the calls with an unknown name or with
    malformed arguments are among the rest; and there is one warning for
    each call dropped, and one more that gives their number. *)
Theorem statistics_agree_with_result (response : OllamaChatResponse)
    (modelName : string) (registeredTools : list Tool) :
  let out := validateAndTranslateResponse JSON_parse response modelName registeredTools in
  totalToolCalls (stats out.2) = length (calls_of response) /\
  validToolCalls (stats out.2) = length (function_calls out.1) /\
  validToolCalls (stats out.2) + hallucinatedToolCalls (stats out.2)
  = totalToolCalls (stats out.2) /\
  invalidJsonCalls (stats out.2) + unknownToolCalls (stats out.2)
  <= hallucinatedToolCalls (stats out.2) /\
  length (warnings (stats out.2))
  = hallucinatedToolCalls (stats out.2)
    + (if Nat.ltb 0 (hallucinatedToolCalls (stats out.2)) then 1 else 0).
Proof.
  cbv zeta.
  destruct (emitted_calls_in_order response modelName registeredTools) as [Hcalls _].
  cbv zeta in Hcalls. rewrite Hcalls. clear Hcalls.
  rewrite validateAndTranslateResponse_eq. cbv zeta. unfold calls_of.
  destruct (tool_calls (message response)) as [calls|]; [|by cbn].
  rewrite convertToGeminiFormat_stats. cbn [or_default].
  pose proof (filter_valid_counters calls (getModelCapabilities modelName)
                registeredTools (effects_after_lookup modelName)) as [Hwarn Hcount].
  pose proof (filter_valid_fst calls (getModelCapabilities modelName)
                registeredTools (effects_after_lookup modelName)) as Hfst.
  set (fv := filter_valid JSON_parse calls (getModelCapabilities modelName)
               registeredTools (effects_after_lookup modelName)) in *.
  assert (Hlen : length fv.1 <= length calls) by (rewrite Hfst; apply length_filter).
  assert (Hemitted : length (omap
                       (fun call =>
                          (convertToolCallToFunctionCall JSON_parse call
                             (getModelCapabilities modelName)).1)
                       (filter (fun call =>
                                  kept_by_validator JSON_parse
                                    (getModelCapabilities modelName) registeredTools call
                                  = true) calls))
                     = length fv.1).
  { rewrite Hfst. apply omap_length_all, Forall_forall.
    intros call [Hkept _]%list_elem_of_filter. by eapply kept_call_converts. }
  rewrite Hemitted. unfold effects_after_lookup in *. cbn in Hwarn, Hcount.
  unfold hallucination_report.
  cbn [update_stats stats set_totals hallucinatedToolCalls].
  destruct (Nat.ltb 0 (length calls - length fv.1)) eqn:Epos;
    cbn [console_warn update_stats stats push_warning set_totals totalToolCalls
         validToolCalls hallucinatedToolCalls invalidJsonCalls unknownToolCalls warnings].
  - rewrite Epos, length_app. cbn [length]. repeat split; lia.
  - rewrite Epos. apply Nat.ltb_ge in Epos. repeat split; lia.
Qed.

(** The result always has a part: the text of the backend first, when it
    is not blank, then the function calls; and a single empty text when
    there is neither.  Finish reason and model are those of the response. *)
Theorem result_is_never_empty (response : OllamaChatResponse)
    (modelName : string) (registeredTools : list Tool) :
  let out := validateAndTranslateResponse JSON_parse response modelName registeredTools in
  parts out.1 <> [] /\
  (JsString.trim (content (message response)) <> "" ->
   parts out.1
   = TextPart (content (message response))
       :: map FunctionCallPart (function_calls out.1)) /\
  (JsString.trim (content (message response)) = "" ->
   parts out.1
   = match function_calls out.1 with
     | [] => [TextPart ""]
     | calls => map FunctionCallPart calls
     end) /\
  finishReason out.1 = (if done response then Some STOP else None) /\
  modelVersion out.1 = model response.
Proof.
  cbv zeta.
  assert (Hshape : forall (r : OllamaChatResponse) capabilities e,
            let g := (convertToGeminiFormat JSON_parse r capabilities e).1 in
            parts g
            = match text_parts r ++ map FunctionCallPart (function_calls g) with
              | [] => [TextPart ""]
              | ps => ps
              end /\
            finishReason g = (if done r then Some STOP else None) /\
            modelVersion g = model r).
  { intros r capabilities e. cbv zeta. rewrite convertToGeminiFormat_calls.
    unfold convertToGeminiFormat, calls_of. cbn [fst parts finishReason modelVersion].
    rewrite <- (omap_of_images fst). split; [|done].
    by destruct (text_parts r ++ _). }
  assert (Htext : forall r : OllamaChatResponse,
            text_parts r
            = if String.eqb (JsString.trim (content (message r))) ""
              then [] else [TextPart (content (message r))]).
  { intros r. unfold text_parts.
    destruct (String.eqb (content (message r)) "") eqn:E.
    - apply String.eqb_eq in E. by rewrite E.
    - by destruct (String.eqb (JsString.trim (content (message r))) ""). }
  rewrite validateAndTranslateResponse_eq. cbv zeta.
  set (g := match tool_calls (message response) with
            | Some calls => _
            | None => _
            end).
  assert (Hg : exists (r : OllamaChatResponse) capabilities e,
            g = convertToGeminiFormat JSON_parse r capabilities e /\
            content (message r) = content (message response) /\
            done r = done response /\ model r = model response).
  { unfold g. destruct (tool_calls (message response)); eexists _, _, _; by split. }
  destruct Hg as (r & capabilities & e & -> & Hcontent & Hdone & Hmodel).
  destruct (Hshape r capabilities e) as (Hparts & Hfinish & Hversion).
  rewrite Hparts, Hfinish, Hversion, Htext, Hcontent, Hdone, Hmodel.
  destruct (String.eqb (JsString.trim (content (message response))) "") eqn:E.
  - apply String.eqb_eq in E. split; [|split; [done|split; [|done]]].
    + by destruct (function_calls _).
    + intros _. by destruct (function_calls _).
  - apply String.eqb_neq in E. by repeat split.
Qed.

End ValidatorFacts.

(** ** ollamaClient.ts *)

Section ClientFacts.

Import OllamaClient.

Variable JSON_parse : string -> result OllamaChatResponse.

Lemma is_LF_eq (c : Ascii.ascii) :
  OllamaToolTranslator.is_LF c = true -> c = Ascii.ascii_of_N 10.
Proof.
  unfold OllamaToolTranslator.is_LF, JsString.code. intros H%N.eqb_eq.
  by rewrite <- (Ascii.ascii_N_embedding c), H.
Qed.

(** Cutting a text into its complete lines and the rest loses nothing:
    putting a line feed after each line and the rest at the end gives the
    text back; and neither a line nor the rest holds a line feed. *)
Theorem split_lines_loses_nothing (text : string) :
  join_lines (split_lines text).1 (split_lines text).2 = text /\
  Forall (fun line => every_char not_LF line = true) (split_lines text).1 /\
  every_char not_LF (split_lines text).2 = true.
Proof.
  induction text as [|c text (Hjoin & Hlines & Hrest)]; [done|].
  cbn [split_lines]. destruct (split_lines text) as [ls rest]. cbn [fst snd] in *.
  destruct (OllamaToolTranslator.is_LF c) eqn:E.
  - cbn [fst snd join_lines foldr]. fold (join_lines ls rest).
    rewrite Hjoin, append_nil_l. apply is_LF_eq in E as ->.
    split; [done|]. split; [|done]. by apply Forall_cons.
  - assert (Hc : not_LF c = true) by (unfold not_LF; by rewrite E).
    destruct ls as [|line ls]; cbn [fst snd join_lines foldr] in *.
    + split; [by rewrite Hjoin|]. split; [done|]. cbn [every_char].
      by rewrite Hc, Hrest.
    + fold (join_lines ls rest) in *. rewrite append_cons, Hjoin.
      split; [done|]. split; [|done].
      apply Forall_cons in Hlines as [Hline Hls]. apply Forall_cons.
      split; [|done]. cbn [every_char]. by rewrite Hc, Hline.
Qed.

Lemma split_lines_without_LF (text : string) :
  every_char not_LF text = true -> split_lines text = ([], text).
Proof.
  induction text as [|c text IH]; [done|].
  cbn [every_char]. intros [Hc Htext]%andb_true_iff.
  cbn [split_lines]. rewrite (IH Htext).
  unfold not_LF in Hc. by destruct (OllamaToolTranslator.is_LF c).
Qed.

Lemma split_lines_first_line (line text : string) :
  every_char not_LF line = true ->
  split_lines (line +:+ LF +:+ text)
  = (line :: (split_lines text).1, (split_lines text).2).
Proof.
  induction line as [|c line IH].
  - intros _. rewrite append_nil_l.
    change (LF +:+ text) with (String (Ascii.ascii_of_N 10) text).
    cbn [split_lines]. destruct (split_lines text) as [ls rest].
    by change (OllamaToolTranslator.is_LF (Ascii.ascii_of_N 10)) with true.
  - cbn [every_char]. intros [Hc Hline]%andb_true_iff.
    rewrite append_cons. cbn [split_lines]. rewrite (IH Hline).
    unfold not_LF in Hc. by destruct (OllamaToolTranslator.is_LF c).
Qed.

(** Conversely the lines and the rest are found again in the text made of
    them. *)
Theorem split_lines_of_joined (ls : list string) (rest : string) :
  Forall (fun line => every_char not_LF line = true) ls ->
  every_char not_LF rest = true ->
  split_lines (join_lines ls rest) = (ls, rest).
Proof.
  intros Hls Hrest. induction Hls as [|line ls Hline _ IH].
  - by apply split_lines_without_LF.
  - cbn [join_lines foldr]. fold (join_lines ls rest).
    by rewrite (split_lines_first_line _ _ Hline), IH.
Qed.

Lemma calls_in_parts_images {A} (f : A -> FunctionCall) (l : list A) :
  calls_in_parts (map (fun a => FunctionCallPart (f a)) l) = map f l.
Proof. induction l as [|a l IH]; [done|]. simpl. f_equal. exact IH. Qed.

(** The conversion of the client, which every frame of a stream goes
    through, checks nothing: each tool call of the backend becomes a function
    call, in order, under the name and with the arguments received. *)
Theorem convertFromOllamaResponse_passes_every_call (response : OllamaChatResponse) :
  function_calls (convertFromOllamaResponse response)
  = map (fun toolCall => {| name := call_name toolCall;
                            args := call_arguments toolCall |})
        (calls_of response) /\
  parts (convertFromOllamaResponse response) <> [].
Proof.
  unfold function_calls, convertFromOllamaResponse, calls_of. cbn [parts].
  destruct (negb (String.eqb (content (message response)) "")).
  - cbn [app]. split; [|done].
    exact (calls_in_parts_images _ (or_default [] (tool_calls (message response)))).
  - cbn [app]. destruct (or_default [] (tool_calls (message response)))
      as [|call calls]; [done|].
    split; [|done]. exact (calls_in_parts_images _ (call :: calls)).
Qed.

(** The events of the stream depend on the text of the body alone, not on
    the chunks in which it arrives. *)
Theorem stream_is_independent_of_chunking (chunks chunks' : list string) :
  body_text chunks = body_text chunks' ->
  generateContentStream JSON_parse chunks = generateContentStream JSON_parse chunks'.
Proof.
  intros Hbody. rewrite !generateContentStream_lines. unfold complete_lines.
  by rewrite Hbody.
Qed.

Lemma process_lines_yields (ls : list string) :
  length (yielded (process_lines JSON_parse ls).1) <= length ls.
Proof.
  induction ls as [|line ls IH]; [done|]. cbn [process_lines].
  destruct (blank line); [cbn [length]; lia|].
  destruct (JSON_parse line) as [frame|error].
  - destruct (done frame); [cbn; lia|].
    destruct (process_lines JSON_parse ls) as [events returned].
    cbn in *. lia.
  - destruct (process_lines JSON_parse ls) as [events returned].
    cbn in *. lia.
Qed.

(** At most one response is yielded for each complete line of the body. *)
Theorem stream_yields_at_most_one_per_line (chunks : list string) :
  length (yielded (generateContentStream JSON_parse chunks))
  <= length (complete_lines chunks).
Proof.
  rewrite generateContentStream_lines, yielded_app. cbn.
  rewrite app_nil_r. apply process_lines_yields.
Qed.

Lemma body_text_app (chunks chunks' : list string) :
  body_text (chunks ++ chunks') = body_text chunks +:+ body_text chunks'.
Proof.
  unfold body_text. induction chunks as [|value chunks IH]; [done|].
  cbn [app foldr]. by rewrite IH, append_assoc.
Qed.

(** Text after the last line feed is never parsed: a last chunk without a
    line feed, be it a whole frame, adds nothing to the stream. *)
Theorem unterminated_tail_is_ignored (chunks : list string) (tail : string) :
  every_char not_LF tail = true ->
  generateContentStream JSON_parse (chunks ++ [tail])
  = generateContentStream JSON_parse chunks.
Proof.
  intros Htail. rewrite !generateContentStream_lines. unfold complete_lines.
  rewrite body_text_app. unfold body_text at 2. cbn [foldr].
  rewrite append_nil_r, split_lines_app. cbn [fst].
  destruct (split_lines_loses_nothing (body_text chunks)) as (_ & _ & Hrest).
  rewrite (split_lines_without_LF ((split_lines (body_text chunks)).2 +:+ tail)).
  - cbn [fst]. by rewrite app_nil_r.
  - by rewrite every_char_app, Hrest, Htail.
Qed.

End ClientFacts.

Lemma split_lines_of_joined_witness :
  OllamaClient.split_lines (join_lines ["{1}"; ""; "{3}"] "{4")
  = (["{1}"; ""; "{3}"], "{4").
Proof.
  apply split_lines_of_joined; [|reflexivity].
  repeat constructor.
Defined.

Lemma stream_is_independent_of_chunking_witness :
  OllamaClient.generateContentStream Sample.parse_frame
    ["{1}" +:+ LF +:+ "{"; "3}" +:+ LF]
  = OllamaClient.generateContentStream Sample.parse_frame
      ["{"; "1}" +:+ LF +:+ "{3}" +:+ LF].
Proof.
  apply stream_is_independent_of_chunking. reflexivity.
Defined.

Lemma unterminated_tail_is_ignored_witness :
  OllamaClient.generateContentStream Sample.parse_frame ["{1}" +:+ LF; "{3}"]
  = OllamaClient.generateContentStream Sample.parse_frame ["{1}" +:+ LF].
Proof.
  apply (unterminated_tail_is_ignored Sample.parse_frame ["{1}" +:+ LF] "{3}").
  reflexivity.
Defined.

(** ** The retry loop, seen from the server *)

Section RetryFacts.

Import OllamaClient.

Variable fetch : nat -> FetchOutcome.

Lemma attempts_from_first_success (maxRetries : Number) (n attempt fuel : nat)
    (v : JsonValue) :
  within_limit (attempt + n) maxRetries = true ->
  (forall i, attempt <= i < attempt + n ->
     exists error, attempt_result fetch i = Throw error) ->
  attempt_result fetch (attempt + n) = Ok v ->
  n < fuel ->
  attempts_from maxRetries fetch fuel attempt
  = Some (Ok v, failed_rounds attempt n ++ [Fetch (attempt + n)]).
Proof.
  revert attempt fuel. induction n as [|n IH]; intros attempt fuel Hwithin Hfailed Hok Hfuel;
    (destruct fuel as [|fuel]; [lia|]); cbn [attempts_from].
  - rewrite Nat.add_0_r in *. by rewrite Hwithin, Hok.
  - rewrite (within_limit_earlier attempt (attempt + S n) maxRetries) by (lia || done).
    destruct (Hfailed attempt) as [error ->]; [lia|].
    rewrite (is_limit_not_earlier attempt (attempt + S n) maxRetries) by (lia || done).
    replace (attempt + S n) with (S attempt + n) in * by lia.
    rewrite (IH (S attempt) fuel); [done|done| |done|lia].
    intros i Hi. apply Hfailed. lia.
Qed.

(** The request returns the body of the first attempt that succeeds, when
    the loop allows that attempt ([k <= maxRetries], whatever number
    [maxRetries] is), after a delay for each attempt that failed before
    it. *)
Theorem makeRequest_returns_first_success (maxRetries : Number) (k fuel : nat)
    (v : JsonValue) :
  within_limit k maxRetries = true ->
  (forall i, i < k -> exists error, attempt_result fetch i = Throw error) ->
  attempt_result fetch k = Ok v ->
  k < fuel ->
  makeRequest maxRetries fetch fuel = Some (Ok v, failed_rounds 0 k ++ [Fetch k]).
Proof.
  intros Hk Hfailed Hsuccess Hfuel. unfold makeRequest.
  apply (attempts_from_first_success maxRetries k 0 fuel v); try done.
  intros i Hi. apply Hfailed. lia.
Qed.

Lemma total_delay_bound (from n : nat) :
  (total_delay (map backoff_delay (seq from n)) <= 10000 * Z.of_nat n)%Z.
Proof.
  revert from. induction n as [|n IH]; intros from; [done|].
  cbn [seq map total_delay foldr]. fold (total_delay (map backoff_delay (seq (S from) n))).
  specialize (IH (S from)). pose proof (backoff_delay_bounds from). lia.
Qed.

(** Whatever the server does, with a finite [maxRetries] that is not
    negative the request ends, and it has waited no more than ten seconds
    for each of the [floor maxRetries + 1] attempts that the loop allows;
    when [maxRetries] is whole, no more than ten seconds for each retry. *)
Theorem makeRequest_total_delay (q : Q) (fuel : nat) :
  (0 <= q)%Q ->
  (Qfloor q + 1 < Z.of_nat fuel)%Z ->
  exists outcome events,
    makeRequest (Finite q) fetch fuel = Some (outcome, events) /\
    (total_delay (slept events) <= 10000 * (Qfloor q + 1))%Z /\
    ((inject_Z (Qfloor q) == q)%Q ->
     (total_delay (slept events) <= 10000 * Qfloor q)%Z).
Proof.
  intros Hq Hfuel. unfold makeRequest.
  assert (0 <= Qfloor q)%Z as Hfloor.
  { apply Qfloor_resp_le in Hq. exact Hq. }
  destruct (attempts_from_returns fetch q fuel 0) as [[outcome events] Hreturns];
    [lia..|].
  exists outcome, events. split; [exact Hreturns|].
  apply attempts_from_shape in Hreturns as (n & Hfailed & Hend).
  cbn [Nat.add] in Hfailed, Hend.
  assert (slept events = map backoff_delay (seq 0 n)) as ->.
  { destruct Hend as [(_ & -> & _) | (_ & -> & _)];
      [apply slept_failed_rounds|apply slept_failed_rounds_only]. }
  pose proof (total_delay_bound 0 n) as Hbound.
  assert (n = 0 \/ exists m, n = S m /\ within_limit m (Finite q) = true
                             /\ is_limit m (Finite q) = false) as Hn.
  { destruct n as [|m]; [by left|]. right. exists m.
    destruct (Hfailed m) as (Hw & Hl & _); [lia|]. done. }
  split.
  - destruct Hn as [-> | (m & -> & Hw%within_limit_floor & _)]; lia.
  - intros Hwhole.
    destruct Hn as [-> | (m & -> & Hw%within_limit_floor & Hl)]; [lia|].
    assert (Z.of_nat m <> Qfloor q); [|lia].
    intros Hm. unfold is_limit in Hl. apply Qeq_bool_neq in Hl.
    apply Hl. by rewrite Hm.
Qed.

End RetryFacts.

Lemma makeRequest_returns_first_success_witness :
  OllamaClient.makeRequest (OllamaClient.Finite 2.5%Q)
    (fun n => if Nat.ltb n 2
              then OllamaClient.Rejected "TypeError: fetch failed"
              else OllamaClient.Responded 200 "OK" (Ok (JObject []))) 3
  = Some (Ok (JObject []),
          [OllamaClient.Fetch 0; OllamaClient.Sleep 1000;
           OllamaClient.Fetch 1; OllamaClient.Sleep 2000; OllamaClient.Fetch 2]).
Proof.
  apply (makeRequest_returns_first_success _ (OllamaClient.Finite 2.5%Q) 2 3
           (JObject [])).
  - reflexivity.
  - intros i Hi. exists "TypeError: fetch failed".
    destruct i as [|[|i]]; [reflexivity..|lia].
  - reflexivity.
  - lia.
Defined.

Lemma makeRequest_total_delay_witness :
  exists outcome events,
    OllamaClient.makeRequest (OllamaClient.Finite 0.05%Q)
      (fun _ => OllamaClient.Rejected "TypeError: fetch failed") 2
    = Some (outcome, events) /\
    (total_delay (OllamaClient.slept events) <= 10000)%Z.
Proof.
  destruct (makeRequest_total_delay
              (fun _ => OllamaClient.Rejected "TypeError: fetch failed")
              0.05%Q 2) as (outcome & events & Hreturns & Hbound & _).
  - discriminate.
  - reflexivity.
  - exists outcome, events. split; [exact Hreturns|exact Hbound].
Defined.

(** ** The prompts *)

Section PromptFacts.

Import ModelPromptEngineer.

Lemma includes_itself (s : string) : JsString.includes s s = true.
Proof. apply includes_true_iff. exists "", "". by rewrite append_nil_l, append_nil_r. Qed.

Lemma includes_app_l (s t sub : string) :
  JsString.includes s sub = true -> JsString.includes (s +:+ t) sub = true.
Proof.
  intros (pre & post & ->)%includes_true_iff. apply includes_true_iff.
  exists pre, (post +:+ t). by rewrite !append_assoc.
Qed.

Lemma includes_app_r (s t sub : string) :
  JsString.includes t sub = true -> JsString.includes (s +:+ t) sub = true.
Proof.
  intros (pre & post & ->)%includes_true_iff. apply includes_true_iff.
  exists (s +:+ pre), post. by rewrite !append_assoc.
Qed.

Lemma includes_joined (sep item : string) (items : list string) :
  item ∈ items -> JsString.includes (String.concat sep items) item = true.
Proof.
  induction items as [|first others IH]; [by intros ?%elem_of_nil|].
  intros [->|Hin]%elem_of_cons.
  - destruct others; [apply includes_itself|apply includes_prefixed].
  - specialize (IH Hin). destruct others as [|second others].
    { by apply elem_of_nil in Hin. }
    change (String.concat sep (first :: second :: others))
      with (first +:+ sep +:+ String.concat sep (second :: others)).
    by do 2 apply includes_app_r.
Qed.

Lemma extractToolList_declared (offered : list Tool) (tool : Tool)
    (decls : list FunctionDeclaration) (func : FunctionDeclaration) :
  tool ∈ offered -> functionDeclarations tool = Some decls -> func ∈ decls ->
  (or_default "unnamed_function" (fd_name func),
   or_default "No description available" (fd_description func))
  ∈ extractToolList offered.
Proof.
  intros Htool Hdecls Hfunc. unfold extractToolList.
  apply list_elem_of_In, in_concat.
  exists (map (fun func =>
                 (or_default "unnamed_function" (fd_name func),
                  or_default "No description available" (fd_description func)))
              decls).
  split.
  - apply in_map_iff. exists tool. rewrite Hdecls. split; [done|].
    by apply list_elem_of_In.
  - apply in_map_iff. exists func. split; [done|]. by apply list_elem_of_In.
Qed.

Lemma generateToolInstructions_tool_lines (offered : list Tool)
    (c : ModelToolCapabilities) (modelName : string) :
  JsString.includes (generateToolInstructions offered c modelName) (tool_lines offered)
  = true.
Proof.
  unfold generateToolInstructions.
  destruct (promptStyle c).
  - unfold generateStandardInstructions.
    match goal with |- context [lines (?a :: ?l)] => set (template := lines (a :: l)) end.
    assert (JsString.includes template (tool_lines offered) = true) as Htemplate.
    { apply includes_joined. set_solver. }
    clearbody template. cbv zeta.
    repeat match goal with
           | |- JsString.includes (if ?b then _ else _) _ = true => destruct b
           | |- JsString.includes (_ +:+ _) _ = true => apply includes_app_l
           end; done.
  - unfold generateAgenticInstructions.
    match goal with |- context [lines (?a :: ?l)] => set (template := lines (a :: l)) end.
    assert (JsString.includes template (tool_lines offered) = true) as Htemplate.
    { apply includes_joined. set_solver. }
    clearbody template. cbv zeta. apply includes_app_l.
    destruct (context_size c); [by apply includes_app_l|done].
  - unfold generateHermesInstructions.
    match goal with |- context [lines (?a :: ?l)] => set (template := lines (a :: l)) end.
    assert (JsString.includes template (tool_lines offered) = true) as Htemplate.
    { apply includes_joined. set_solver. }
    clearbody template. cbv zeta.
    repeat match goal with
           | |- JsString.includes (if ?b then _ else _) _ = true => destruct b
           | |- JsString.includes (_ +:+ _) _ = true => apply includes_app_l
           end; done.
Qed.

Lemma modelSupportsTools_entry (modelName : string) :
  modelSupportsTools modelName = true ->
  exists c, getModelCapabilities modelName = Entry c /\ supportsTools c = true.
Proof.
  unfold modelSupportsTools, truthy_supportsTools.
  destruct (getModelCapabilities modelName) as [c|member]; [|done].
  cbn [read]. intros Hc. by exists c.
Qed.

(** The prompt comes back as it was exactly when the model does not support
    tools or no tool is offered. *)
Theorem enhanceSystemPrompt_unchanged_iff (basePrompt modelName : string)
    (offered : list Tool) :
  enhanceSystemPrompt basePrompt modelName offered = basePrompt <->
  modelSupportsTools modelName = false \/ offered = [].
Proof.
  unfold enhanceSystemPrompt, modelSupportsTools, truthy_supportsTools.
  destruct (getModelCapabilities modelName) as [c|member]; cbn [read];
    [|split; [by left|done]].
  destruct (supportsTools c); cbn [negb orb]; [|split; [by left|done]].
  destruct offered as [|tool offered]; [split; [by right|done]|].
  rewrite bool_decide_eq_false_2 by done.
  split; [|by intros [?|?]].
  intros Hsame. apply (f_equal String.length) in Hsame.
  rewrite !string_length_app in Hsame. cbn [LF String.length] in Hsame. lia.
Qed.

(** For a model that supports tools the prompt names every function
    declaration of every tool offered, with its description: the second and
    later declarations of a tool, and the tools beyond [maxTools], are listed
    although they are not translated. *)
Theorem enhanceSystemPrompt_lists_every_declaration (basePrompt modelName : string)
    (offered : list Tool) (tool : Tool) (decls : list FunctionDeclaration)
    (func : FunctionDeclaration) :
  modelSupportsTools modelName = true ->
  tool ∈ offered -> functionDeclarations tool = Some decls -> func ∈ decls ->
  JsString.includes (enhanceSystemPrompt basePrompt modelName offered)
    ("- **" +:+ or_default "unnamed_function" (fd_name func) +:+ "**: "
       +:+ or_default "No description available" (fd_description func))
  = true.
Proof.
  intros (c & Hc & Hsupports)%modelSupportsTools_entry Htool Hdecls Hfunc.
  unfold enhanceSystemPrompt. rewrite Hc, Hsupports. cbn [negb orb].
  destruct offered as [|first others] eqn:Eoffered; [by apply elem_of_nil in Htool|].
  rewrite bool_decide_eq_false_2 by done. rewrite <- Eoffered in *.
  do 3 apply includes_app_r.
  destruct (proj1 (includes_true_iff _ _)
              (generateToolInstructions_tool_lines offered c modelName))
    as (pre & post & ->).
  apply includes_app_r, includes_app_l.
  unfold tool_lines, lines. apply includes_joined.
  apply list_elem_of_fmap.
  exists (or_default "unnamed_function" (fd_name func),
          or_default "No description available" (fd_description func)).
  split; [done|]. by eapply extractToolList_declared.
Qed.

(** The message of the user is never lost: it is part of what is sent for
    it, whatever the model and the tools. *)
Theorem enhanceUserMessage_keeps_message (userMessage modelName : string)
    (availableTools : list Tool) :
  JsString.includes (enhanceUserMessage userMessage modelName availableTools)
    userMessage = true.
Proof.
  unfold enhanceUserMessage.
  destruct (getModelCapabilities modelName) as [c|member]; [|apply includes_itself].
  destruct (_ || _); [apply includes_itself|].
  destruct (promptStyle c), (multiTurnSupport c);
    first [ apply includes_itself
          | apply includes_prefixed
          | apply includes_app_r, includes_itself ].
Qed.

End PromptFacts.

Lemma enhanceSystemPrompt_lists_every_declaration_witness :
  JsString.includes
    (ModelPromptEngineer.enhanceSystemPrompt "You are a helpful assistant."
       "mistral-nemo"
       [Sample.tool "search";
        {| functionDeclarations :=
             Some [Sample.declaration "fetch";
                   {| fd_name := None; fd_description := None;
                      fd_parameters := None |}];
           other_members := [] |}])
    ("- **" +:+ "unnamed_function" +:+ "**: " +:+ "No description available")
  = true.
Proof.
  apply (enhanceSystemPrompt_lists_every_declaration _ "mistral-nemo" _
           {| functionDeclarations :=
                Some [Sample.declaration "fetch";
                      {| fd_name := None; fd_description := None;
                         fd_parameters := None |}];
              other_members := [] |}
           [Sample.declaration "fetch";
            {| fd_name := None; fd_description := None; fd_parameters := None |}]
           {| fd_name := None; fd_description := None; fd_parameters := None |}).
  - reflexivity.
  - right. left.
  - reflexivity.
  - right. left.
Defined.
